(** * GitAI: the GitHub client (github_integration.py) and its command
      line front end (cli.py), embedded as state-passing functions.

    The Python methods mutate [self.config], the headers of the [requests]
    session, the file system and the console, and talk to a remote server.
    Here every method is a function in a small state monad [M]: the mutable
    part is the record [state], the outside world the code cannot control
    (the remote server, the process environment, whether a file can be
    opened) is the read-only record [environment]. *)

From Stdlib Require Import ZArith List String Ascii Bool Lia Floats.
From stdpp Require Import base gmap strings list.
Import ListNotations.

Set Warnings "-register-all".

Open Scope Z_scope.
Open Scope string_scope.
Open Scope list_scope.

(** ** Python values decoded from JSON

    [response.json()] and [json.load] return [None], [bool], [int], [float],
    [str], [list] or [dict]; a [dict] keeps its insertion order, which is
    what iterating over it observes. *)

Inductive json : Type :=
  | JNull
  | JBool (b : bool)
  | JNum (n : Z)
  | JFloat (f : float)
  | JStr (s : string)
  | JArr (items : list json)
  | JObj (fields : list (string * json)).

Inductive pytype := TNone | TBool | TInt | TFloat | TStr | TList | TDict.

Definition type_of (v : json) : pytype :=
  match v with
  | JNull => TNone
  | JBool _ => TBool
  | JNum _ => TInt
  | JFloat _ => TFloat
  | JStr _ => TStr
  | JArr _ => TList
  | JObj _ => TDict
  end.

(** The exceptions the code can meet inside its [try] blocks. Each handler
    is [except Exception as e] and only prints [str(e)]. *)
Inductive pyexn :=
  | RequestException (description : string)   (* raised by session.get / session.post *)
  | JSONDecodeError (description : string)    (* raised by response.json() / json.load *)
  | OSError (description : string)            (* raised by open() *)
  | AttributeError (t : pytype) (attr : string)
  | TypeError (t : pytype) (operation : string)
  | KeyError (key : string)
  | ValueError (description : string).          (* raised by tuple unpacking *)

Inductive outcome (A : Type) :=
  | Return (a : A)
  | Raise (e : pyexn).
Arguments Return {A} a.
Arguments Raise {A} e.

(** [bool(v)]: what [if v:] and [not v] test. *)
Definition py_truthy (v : json) : bool :=
  match v with
  | JNull => false
  | JBool b => b
  | JNum n => negb (n =? 0)%Z
  | JFloat f => negb (PrimFloat.eqb f 0%float)
  | JStr s => negb (String.eqb s "")
  | JArr items => match items with [] => false | _ :: _ => true end
  | JObj fields => match fields with [] => false | _ :: _ => true end
  end.

(** A Python [str] is a sequence of code points and a Rocq [string] a
    sequence of bytes (UTF-8). A byte [10xxxxxx] continues the code point
    started before it. *)
Definition is_continuation (c : ascii) : bool :=
  let n := N_of_ascii c in (128 <=? n)%N && (n <? 192)%N.

Fixpoint py_chars (s : string) : list string :=
  match s with
  | EmptyString => []
  | String c rest =>
      match py_chars rest with
      | [] => [String c EmptyString]
      | ch :: chs =>
          match rest with
          | String c' _ =>
              if is_continuation c' then String c ch :: chs
              else String c EmptyString :: ch :: chs
          | EmptyString => [String c EmptyString]
          end
      end
  end.

(** [iter(v)], as [list.extend(v)] uses it. *)
Definition py_iter (v : json) : outcome (list json) :=
  match v with
  | JArr items => Return items
  | JObj fields => Return (map (fun kv => JStr (fst kv)) fields)
  | JStr s => Return (map JStr (py_chars s))
  | _ => Raise (TypeError (type_of v) "iter")
  end.

Fixpoint assoc (key : string) (fields : list (string * json)) : option json :=
  match fields with
  | [] => None
  | (k, v) :: rest => if String.eqb k key then Some v else assoc key rest
  end.

(** [v.get(key, default)]; only a [dict] has the method. *)
Definition py_get (v : json) (key : string) (default : json) : outcome json :=
  match v with
  | JObj fields =>
      Return (match assoc key fields with Some x => x | None => default end)
  | _ => Raise (AttributeError (type_of v) "get")
  end.

(** [v[key]] for a string key. *)
Definition py_getitem (v : json) (key : string) : outcome json :=
  match v with
  | JObj fields =>
      match assoc key fields with
      | Some x => Return x
      | None => Raise (KeyError key)
      end
  | _ => Raise (TypeError (type_of v) "getitem")
  end.

(** [s.split(sep)] for a one-character separator. The separator used by
    the code is ['/'], a byte that never occurs inside a multi-byte code
    point, so splitting bytes and splitting code points agree. *)
Fixpoint py_split (sep : ascii) (s : string) : list string :=
  match s with
  | EmptyString => [EmptyString]
  | String c rest =>
      if Ascii.eqb c sep then EmptyString :: py_split sep rest
      else match py_split sep rest with
           | [] => [String c EmptyString]
           | piece :: pieces => String c piece :: pieces
           end
  end.

Fixpoint count_char (sep : ascii) (s : string) : nat :=
  match s with
  | EmptyString => O
  | String c rest =>
      if Ascii.eqb c sep then S (count_char sep rest) else count_char sep rest
  end.

(** ** HTTP *)

Inductive http_method := GET | POST.

(** The URL is the f-string [f"{self.config.api_base_url}{path}"]; the two
    parts are kept apart. [req_params] is the [params=] dict, [req_json]
    the [json=] body, [req_headers] the session headers at the time. *)
Record request := {
  req_method : http_method;
  req_base : json;
  req_path : string;
  req_params : gmap string json;
  req_json : option json;
  req_headers : gmap string string
}.

Record response := {
  status_code : Z;
  text : string;
  resp_json : outcome json        (* response.json() *)
}.

(** ** Session *)

Record GitHubConfig := {
  token : option string;
  username : json;                (* Optional[str]; None is JNull *)
  api_base_url : json;
  config_file : string
}.

Definition default_config (home_config : string) : GitHubConfig :=
  {| token := None; username := JNull;
     api_base_url := JStr "https://api.github.com";
     config_file := home_config |}.

(** One constructor per [print] of the two modules, with the values the
    f-string interpolates. The emoji prefix and the fixed text are left
    out. The messages of cli.py that render a fetched item carry the item
    as a whole. *)
Inductive msg :=
  | MsgNoToken                                   (* github_integration.py:59 *)
  | MsgAuthOk (login : json)                     (* :70 *)
  | MsgAuthFailed (status : Z) (body : string)   (* :74 *)
  | MsgAuthError (e : pyexn)                     (* :77 *)
  | MsgSaveWarning (e : pyexn)                   (* :91 *)
  | MsgLoadWarning (e : pyexn)                   (* :102 *)
  | MsgNotAuthenticated                          (* :115, :190 *)
  | MsgReposFailed (status : Z)                  (* :144 *)
  | MsgReposError (e : pyexn)                    (* :147 *)
  | MsgRepoNotFound (owner repo_name : string)   (* :168 *)
  | MsgRepoInfoFailed (status : Z)               (* :171 *)
  | MsgRepoInfoError (e : pyexn)                 (* :174 *)
  | MsgRepoCreated (full_name : json)            (* :204 *)
  | MsgCreateRepoFailed (status : Z) (body : string) (* :207 *)
  | MsgCreateRepoError (e : pyexn)               (* :210 *)
  | MsgBranchesFailed (status : Z)               (* :229 *)
  | MsgBranchesError (e : pyexn)                 (* :232 *)
  | MsgCommitsFailed (status : Z)                (* :258 *)
  | MsgCommitsError (e : pyexn)                  (* :261 *)
  | MsgIssueCreated (number : json) (title : string) (* :290 *)
  | MsgCreateIssueFailed (status : Z) (body : string) (* :293 *)
  | MsgCreateIssueError (e : pyexn)              (* :296 *)
  | MsgIssuesFailed (status : Z)                 (* :322 *)
  | MsgIssuesError (e : pyexn)                   (* :325 *)
  | MsgTokenHelp                                 (* :341-345 *)
  | CliAuthSuccessful                            (* cli.py:35 *)
  | CliAuthFailed                                (* cli.py:37 *)
  | CliPleaseAuthenticate                        (* cli.py:43, :95, :178 *)
  | CliReposHeader                               (* cli.py:46 *)
  | CliNoRepos                                   (* cli.py:50 *)
  | CliRepoLine (repo : json)                    (* cli.py:54-63 *)
  | CliInvalidPath                               (* cli.py:70, :109, :128, :151, :174 *)
  | CliRepoInfo (repo_info : json)               (* cli.py:77-90 *)
  | CliRepoCreated (repo_data : json)            (* cli.py:100-102 *)
  | CliBranchesHeader (repo_path : string)       (* cli.py:116 *)
  | CliBranchLine (branch : json)                (* cli.py:118-121 *)
  | CliCommitsHeader (repo_path branch : string) (* cli.py:135 *)
  | CliCommitLine (commit : json)                (* cli.py:137-144 *)
  | CliNoIssues (state : string)                 (* cli.py:156 *)
  | CliIssuesHeader (state repo_path : string)   (* cli.py:159 *)
  | CliIssueLine (issue : json)                  (* cli.py:161-167 *)
  | CliIssueCreated (issue_data : json)          (* cli.py:183-184 *)
  | CliHelp.                                     (* cli.py:234 *)

(** The mutable world: the [GitHubIntegration] object ([config] and the
    session headers), the files (what [open] + [json.load] would give for
    each existing path), the console, and three logs kept for the proofs:
    the requests sent, the documents written by [json.dump], and the
    environment variables read. *)
Record state := {
  config : GitHubConfig;
  session_headers : gmap string string;
  files : gmap string (outcome json);
  stdout : list msg;
  net_log : list request;
  write_log : list (string * json);
  env_reads : list string
}.

(** What the code does not control. [remote history req] is the answer of
    the transport to [req] after the requests [history]; [open_write path]
    is the exception [open(path, 'w')] raises, if any; [stdin_line] is
    [input(...).strip()]; [home_config] is
    [os.path.expanduser("~/.gitai_config.json")] and [default_headers] the
    headers of a new [requests.Session]. *)
Record environment := {
  remote : list request -> request -> outcome response;
  getenv : string -> option string;
  open_write : string -> option pyexn;
  stdin_line : string;
  home_config : string;
  default_headers : gmap string string
}.

Definition M (A : Type) : Type := environment -> state -> A * state.

Definition ret {A} (a : A) : M A := fun _ st => (a, st).

Definition bind {A B} (m : M A) (k : A -> M B) : M B :=
  fun env st => let (a, st') := m env st in k a env st'.

Declare Scope gitai_scope.
Delimit Scope gitai_scope with gitai.
Notation "x <- m ;; k" := (bind m (fun x => k))
  (at level 100, m at next level, right associativity) : gitai_scope.
Notation "m ;;; k" := (bind m (fun _ => k))
  (at level 100, right associativity) : gitai_scope.
Open Scope gitai_scope.

Definition set_config (c : GitHubConfig) (st : state) : state :=
  {| config := c; session_headers := session_headers st; files := files st;
     stdout := stdout st; net_log := net_log st; write_log := write_log st;
     env_reads := env_reads st |}.

Definition set_session_headers (h : gmap string string) (st : state) : state :=
  {| config := config st; session_headers := h; files := files st;
     stdout := stdout st; net_log := net_log st; write_log := write_log st;
     env_reads := env_reads st |}.

Definition set_stdout (out : list msg) (st : state) : state :=
  {| config := config st; session_headers := session_headers st;
     files := files st; stdout := out; net_log := net_log st;
     write_log := write_log st; env_reads := env_reads st |}.

Definition set_net_log (log : list request) (st : state) : state :=
  {| config := config st; session_headers := session_headers st;
     files := files st; stdout := stdout st; net_log := log;
     write_log := write_log st; env_reads := env_reads st |}.

Definition set_env_reads (names : list string) (st : state) : state :=
  {| config := config st; session_headers := session_headers st;
     files := files st; stdout := stdout st; net_log := net_log st;
     write_log := write_log st; env_reads := names |}.

Definition write_file (path : string) (doc : json) (st : state) : state :=
  {| config := config st; session_headers := session_headers st;
     files := <[path := Return doc]> (files st); stdout := stdout st;
     net_log := net_log st; write_log := write_log st ++ [(path, doc)];
     env_reads := env_reads st |}.

Definition set_token (t : option string) (c : GitHubConfig) : GitHubConfig :=
  {| token := t; username := username c; api_base_url := api_base_url c;
     config_file := config_file c |}.

Definition set_username (u : json) (c : GitHubConfig) : GitHubConfig :=
  {| token := token c; username := u; api_base_url := api_base_url c;
     config_file := config_file c |}.

Definition set_api_base_url (b : json) (c : GitHubConfig) : GitHubConfig :=
  {| token := token c; username := username c; api_base_url := b;
     config_file := config_file c |}.

Definition get_config : M GitHubConfig := fun _ st => (config st, st).

Definition modify_config (f : GitHubConfig -> GitHubConfig) : M unit :=
  fun _ st => (tt, set_config (f (config st)) st).

Definition print (m : msg) : M unit :=
  fun _ st => (tt, set_stdout (stdout st ++ [m]) st).

(** [os.getenv(name)] *)
Definition os_getenv (name : string) : M (option string) :=
  fun env st => (getenv env name, set_env_reads (env_reads st ++ [name]) st).

(** [d.update(h)] on a dict [d] *)
Definition dict_update {V} (h : list (string * V)) (d : gmap string V)
    : gmap string V :=
  fold_left (fun m kv => <[fst kv := snd kv]> m) h d.

(** [self.session.headers.update(h)] *)
Definition headers_update (h : list (string * string)) : M unit :=
  fun _ st => (tt, set_session_headers (dict_update h (session_headers st)) st).

(** The request [self.session] sends for a method, a path below
    [api_base_url], the [params=] dict and the [json=] body. *)
Definition build_request (m : http_method) (path : string)
    (params : gmap string json) (body : option json) (st : state) : request :=
  {| req_method := m; req_base := api_base_url (config st);
     req_path := path; req_params := params; req_json := body;
     req_headers := session_headers st |}.

(** [self.session.get(url, params=...)] and [self.session.post(url, json=...)] *)
Definition session_send (m : http_method) (path : string)
    (params : gmap string json) (body : option json) : M (outcome response) :=
  fun env st =>
    let req := build_request m path params body st in
    (remote env (net_log st) req, set_net_log (net_log st ++ [req]) st).

Definition session_get (path : string) (params : gmap string json) :=
  session_send GET path params None.

Definition session_post (path : string) (data : json) :=
  session_send POST path ∅ (Some data).

(** [with open(path, 'w') as f: json.dump(doc, f, indent=2)]. Only
    [open] can fail: every value of type [json] can be dumped. *)
Definition dump_to_file (path : string) (doc : json) : M (outcome unit) :=
  fun env st =>
    match open_write env path with
    | Some e => (Raise e, st)
    | None => (Return tt, write_file path doc st)
    end.

(** [bool(token)] for an [Optional[str]]. *)
Definition has_token (t : option string) : bool :=
  match t with
  | Some s => negb (String.eqb s "")
  | None => false
  end.

(** ** github_integration.py *)

Definition _setup_session : M unit :=
  c <- get_config ;;
  match token c with
  | Some t =>
      if negb (String.eqb t "") then
        headers_update [("Authorization", "token " +:+ t);
                        ("Accept", "application/vnd.github.v3+json");
                        ("User-Agent", "GitAI-CLI/1.0")]
      else ret tt
  | None => ret tt
  end.

Definition _save_config : M unit :=
  c <- get_config ;;
  let config_data := JObj [("username", username c);
                           ("api_base_url", api_base_url c)] in
  r <- dump_to_file (config_file c) config_data ;;
  match r with
  | Return _ => ret tt
  | Raise e => print (MsgSaveWarning e)
  end.

Definition authenticate (tok : option string) : M bool :=
  c0 <- get_config ;;
  (if has_token tok then modify_config (set_token tok)
   else if negb (has_token (token c0)) then
          (t <- os_getenv "GITHUB_TOKEN" ;; modify_config (set_token t))
        else ret tt) ;;;
  c <- get_config ;;
  if negb (has_token (token c)) then
    print MsgNoToken ;;; ret false
  else
    _setup_session ;;;
    r <- session_get "/user" ∅ ;;
    match r with
    | Raise e => print (MsgAuthError e) ;;; ret false
    | Return resp =>
        if (status_code resp =? 200)%Z then
          match resp_json resp with
          | Raise e => print (MsgAuthError e) ;;; ret false
          | Return user_data =>
              match py_get user_data "login" JNull with
              | Raise e => print (MsgAuthError e) ;;; ret false
              | Return login =>
                  modify_config (set_username login) ;;;
                  print (MsgAuthOk login) ;;;
                  _save_config ;;;
                  ret true
              end
          end
        else
          print (MsgAuthFailed (status_code resp) (text resp)) ;;; ret false
    end.

(** [os.path.exists(path)], then [open(path)] and [json.load]. *)
Definition read_file (path : string) : M (option (outcome json)) :=
  fun _ st => (files st !! path, st).

Definition _load_config : M unit :=
  c <- get_config ;;
  f <- read_file (config_file c) ;;
  match f with
  | None => ret tt
  | Some (Raise e) => print (MsgLoadWarning e)
  | Some (Return config_data) =>
      match py_get config_data "username" JNull with
      | Raise e => print (MsgLoadWarning e)
      | Return u =>
          modify_config (set_username u) ;;;
          match py_get config_data "api_base_url" (api_base_url c) with
          | Raise e => print (MsgLoadWarning e)
          | Return b => modify_config (set_api_base_url b)
          end
      end
  end.

Definition repos_params (include_private : bool) (page : Z) : gmap string json :=
  <["visibility" := JStr (if include_private then "all" else "public")]>
    (<["direction" := JStr "desc"]>
      (<["sort" := JStr "updated"]>
        (<["per_page" := JNum 100]>
          (<["page" := JNum page]> ∅)))).

(** The [while True] loop of [get_user_repos]; [None] when [fuel]
    iterations were not enough to leave it. *)
Fixpoint get_user_repos_loop (fuel : nat) (include_private : bool)
    (repos : list json) (page : Z) : M (option (list json)) :=
  match fuel with
  | O => ret None
  | S fuel' =>
      r <- session_get "/user/repos" (repos_params include_private page) ;;
      match r with
      | Raise e => print (MsgReposError e) ;;; ret (Some repos)
      | Return resp =>
          if (status_code resp =? 200)%Z then
            match resp_json resp with
            | Raise e => print (MsgReposError e) ;;; ret (Some repos)
            | Return page_repos =>
                if negb (py_truthy page_repos) then ret (Some repos)
                else
                  match py_iter page_repos with
                  | Raise e => print (MsgReposError e) ;;; ret (Some repos)
                  | Return items =>
                      get_user_repos_loop fuel' include_private
                        (repos ++ items) (page + 1)%Z
                  end
            end
          else
            print (MsgReposFailed (status_code resp)) ;;; ret (Some repos)
      end
  end.

Definition get_user_repos (fuel : nat) (include_private : bool)
    : M (option (list json)) :=
  c <- get_config ;;
  if negb (has_token (token c)) then
    print MsgNotAuthenticated ;;; ret (Some [])
  else get_user_repos_loop fuel include_private [] 1%Z.

Definition repo_url (owner repo_name : string) : string :=
  "/repos/" +:+ owner +:+ "/" +:+ repo_name.

Definition get_repo_info (owner repo_name : string) : M json :=
  r <- session_get (repo_url owner repo_name) ∅ ;;
  match r with
  | Raise e => print (MsgRepoInfoError e) ;;; ret JNull
  | Return resp =>
      if (status_code resp =? 200)%Z then
        match resp_json resp with
        | Raise e => print (MsgRepoInfoError e) ;;; ret JNull
        | Return v => ret v
        end
      else if (status_code resp =? 404)%Z then
        print (MsgRepoNotFound owner repo_name) ;;; ret JNull
      else
        print (MsgRepoInfoFailed (status_code resp)) ;;; ret JNull
  end.

Definition create_repository (name description : string) (private : bool)
    : M json :=
  c <- get_config ;;
  if negb (has_token (token c)) then
    print MsgNotAuthenticated ;;; ret JNull
  else
    let data := JObj [("name", JStr name); ("description", JStr description);
                      ("private", JBool private); ("auto_init", JBool true)] in
    r <- session_post "/user/repos" data ;;
    match r with
    | Raise e => print (MsgCreateRepoError e) ;;; ret JNull
    | Return resp =>
        if (status_code resp =? 201)%Z then
          match resp_json resp with
          | Raise e => print (MsgCreateRepoError e) ;;; ret JNull
          | Return repo_data =>
              match py_getitem repo_data "full_name" with
              | Raise e => print (MsgCreateRepoError e) ;;; ret JNull
              | Return n => print (MsgRepoCreated n) ;;; ret repo_data
              end
          end
        else
          print (MsgCreateRepoFailed (status_code resp) (text resp)) ;;;
          ret JNull
    end.

(** The three single-request listings differ in the URL suffix, the
    parameters and the two messages only. *)
Definition get_repo_branches (owner repo_name : string) : M json :=
  r <- session_get (repo_url owner repo_name +:+ "/branches") ∅ ;;
  match r with
  | Raise e => print (MsgBranchesError e) ;;; ret (JArr [])
  | Return resp =>
      if (status_code resp =? 200)%Z then
        match resp_json resp with
        | Raise e => print (MsgBranchesError e) ;;; ret (JArr [])
        | Return v => ret v
        end
      else print (MsgBranchesFailed (status_code resp)) ;;; ret (JArr [])
  end.

Definition get_repo_commits (owner repo_name branch : string) (limit : Z)
    : M json :=
  let params : gmap string json :=
    <["per_page" := JNum limit]> (<["sha" := JStr branch]> ∅) in
  r <- session_get (repo_url owner repo_name +:+ "/commits") params ;;
  match r with
  | Raise e => print (MsgCommitsError e) ;;; ret (JArr [])
  | Return resp =>
      if (status_code resp =? 200)%Z then
        match resp_json resp with
        | Raise e => print (MsgCommitsError e) ;;; ret (JArr [])
        | Return v => ret v
        end
      else print (MsgCommitsFailed (status_code resp)) ;;; ret (JArr [])
  end.

Definition create_issue (owner repo_name title body : string)
    (labels : option (list string)) : M json :=
  let data :=
    JObj ([("title", JStr title); ("body", JStr body)] ++
          match labels with
          | Some (l :: ls) => [("labels", JArr (map JStr (l :: ls)))]
          | _ => []
          end) in
  r <- session_post (repo_url owner repo_name +:+ "/issues") data ;;
  match r with
  | Raise e => print (MsgCreateIssueError e) ;;; ret JNull
  | Return resp =>
      if (status_code resp =? 201)%Z then
        match resp_json resp with
        | Raise e => print (MsgCreateIssueError e) ;;; ret JNull
        | Return issue_data =>
            match py_getitem issue_data "number" with
            | Raise e => print (MsgCreateIssueError e) ;;; ret JNull
            | Return n => print (MsgIssueCreated n title) ;;; ret issue_data
            end
        end
      else
        print (MsgCreateIssueFailed (status_code resp) (text resp)) ;;;
        ret JNull
  end.

Definition get_repo_issues (owner repo_name issue_state : string) : M json :=
  let params : gmap string json :=
    <["direction" := JStr "desc"]>
      (<["sort" := JStr "updated"]> (<["state" := JStr issue_state]> ∅)) in
  r <- session_get (repo_url owner repo_name +:+ "/issues") params ;;
  match r with
  | Raise e => print (MsgIssuesError e) ;;; ret (JArr [])
  | Return resp =>
      if (status_code resp =? 200)%Z then
        match resp_json resp with
        | Raise e => print (MsgIssuesError e) ;;; ret (JArr [])
        | Return v => ret v
        end
      else print (MsgIssuesFailed (status_code resp)) ;;; ret (JArr [])
  end.

(** [GitHubIntegration(config)]: [self.config = config or GitHubConfig()],
    a new [requests.Session], then [_setup_session]. The object replaces
    the one the state held. *)
Definition GitHubIntegration_init (cfg : option GitHubConfig) : M unit :=
  (fun env st =>
     (tt, set_session_headers (default_headers env)
            (set_config
               (match cfg with
                | Some c => c
                | None => default_config (home_config env)
                end) st))) ;;;
  _setup_session.

Definition setup_github_integration : M unit :=
  GitHubIntegration_init None ;;;
  _load_config ;;;
  ok <- authenticate None ;;
  if negb ok then print MsgTokenHelp else ret tt.

(** ** cli.py *)

(** How a command ends: it returns, [sys.exit(code)] is called, or an
    exception no handler catches ends the process. The formatting of one
    fetched item is a single message here, so an exception raised while
    formatting a malformed item (a missing key) is not tracked. *)
Inductive cli_result :=
  | Returned
  | Exited (code : Z)
  | Crashed (e : pyexn).

Fixpoint print_all (ms : list msg) : M unit :=
  match ms with
  | [] => ret tt
  | m :: rest => print m ;;; print_all rest
  end.

(** [owner, repo_name = repo_path.split('/')] *)
Definition split_repo_path (repo_path : string) : outcome (string * string) :=
  match py_split "/" repo_path with
  | [owner; repo_name] => Return (owner, repo_name)
  | _ => Raise (ValueError "unpack")
  end.

(** [input(prompt).strip()] *)
Definition input_stripped : M string := fun env st => (stdin_line env, st).

Module GitAICLI.

(** [GitAICLI()] *)
Definition init : M unit := setup_github_integration.

Definition authenticate (tok : option string) : M cli_result :=
  tok' <- (if has_token tok then ret tok
           else (line <- input_stripped ;; ret (Some line))) ;;
  ok <- authenticate tok' ;;
  if ok then print CliAuthSuccessful ;;; ret Returned
  else print CliAuthFailed ;;; ret (Exited 1).

Definition list_repos (fuel : nat) (include_private : bool)
    : M (option cli_result) :=
  c <- get_config ;;
  if negb (has_token (token c)) then
    print CliPleaseAuthenticate ;;; ret (Some Returned)
  else
    print CliReposHeader ;;;
    r <- get_user_repos fuel include_private ;;
    match r with
    | None => ret None
    | Some [] => print CliNoRepos ;;; ret (Some Returned)
    | Some repos => print_all (map CliRepoLine repos) ;;; ret (Some Returned)
    end.

Definition get_repo_info (repo_path : string) : M cli_result :=
  match split_repo_path repo_path with
  | Raise _ => print CliInvalidPath ;;; ret Returned
  | Return (owner, repo_name) =>
      repo_info <- get_repo_info owner repo_name ;;
      if negb (py_truthy repo_info) then ret Returned
      else print (CliRepoInfo repo_info) ;;; ret Returned
  end.

Definition create_repo (name description : string) (private : bool)
    : M cli_result :=
  c <- get_config ;;
  if negb (has_token (token c)) then
    print CliPleaseAuthenticate ;;; ret Returned
  else
    repo_data <- create_repository name description private ;;
    if py_truthy repo_data then print (CliRepoCreated repo_data) ;;; ret Returned
    else ret Returned.

Definition list_branches (repo_path : string) : M cli_result :=
  match split_repo_path repo_path with
  | Raise _ => print CliInvalidPath ;;; ret Returned
  | Return (owner, repo_name) =>
      branches <- get_repo_branches owner repo_name ;;
      if negb (py_truthy branches) then ret Returned
      else
        print (CliBranchesHeader repo_path) ;;;
        match py_iter branches with
        | Raise e => ret (Crashed e)
        | Return items => print_all (map CliBranchLine items) ;;; ret Returned
        end
  end.

Definition list_commits (repo_path branch : string) (limit : Z)
    : M cli_result :=
  match split_repo_path repo_path with
  | Raise _ => print CliInvalidPath ;;; ret Returned
  | Return (owner, repo_name) =>
      commits <- get_repo_commits owner repo_name branch limit ;;
      if negb (py_truthy commits) then ret Returned
      else
        print (CliCommitsHeader repo_path branch) ;;;
        match py_iter commits with
        | Raise e => ret (Crashed e)
        | Return items => print_all (map CliCommitLine items) ;;; ret Returned
        end
  end.

Definition list_issues (repo_path issue_state : string) : M cli_result :=
  match split_repo_path repo_path with
  | Raise _ => print CliInvalidPath ;;; ret Returned
  | Return (owner, repo_name) =>
      issues <- get_repo_issues owner repo_name issue_state ;;
      if negb (py_truthy issues) then
        print (CliNoIssues issue_state) ;;; ret Returned
      else
        print (CliIssuesHeader issue_state repo_path) ;;;
        match py_iter issues with
        | Raise e => ret (Crashed e)
        | Return items => print_all (map CliIssueLine items) ;;; ret Returned
        end
  end.

Definition create_issue (repo_path title body : string) : M cli_result :=
  match split_repo_path repo_path with
  | Raise _ => print CliInvalidPath ;;; ret Returned
  | Return (owner, repo_name) =>
      c <- get_config ;;
      if negb (has_token (token c)) then
        print CliPleaseAuthenticate ;;; ret Returned
      else
        issue_data <- create_issue owner repo_name title body None ;;
        if py_truthy issue_data then
          print (CliIssueCreated issue_data) ;;; ret Returned
        else ret Returned
  end.

End GitAICLI.

(** The parsed command line of [main]. *)
Inductive command :=
  | CmdAuth (tok : option string)
  | CmdRepos (public_only : bool)
  | CmdRepo (path : string)
  | CmdCreate (name description : string) (private : bool)
  | CmdBranches (path : string)
  | CmdCommits (path branch : string) (limit : Z)
  | CmdIssues (path issue_state : string)
  | CmdCreateIssue (path title body : string).

Definition dispatch (fuel : nat) (cmd : command) : M (option cli_result) :=
  match cmd with
  | CmdAuth tok => r <- GitAICLI.authenticate tok ;; ret (Some r)
  | CmdRepos public_only => GitAICLI.list_repos fuel (negb public_only)
  | CmdRepo path => r <- GitAICLI.get_repo_info path ;; ret (Some r)
  | CmdCreate name description private =>
      r <- GitAICLI.create_repo name description private ;; ret (Some r)
  | CmdBranches path => r <- GitAICLI.list_branches path ;; ret (Some r)
  | CmdCommits path branch limit =>
      r <- GitAICLI.list_commits path branch limit ;; ret (Some r)
  | CmdIssues path issue_state =>
      r <- GitAICLI.list_issues path issue_state ;; ret (Some r)
  | CmdCreateIssue path title body =>
      r <- GitAICLI.create_issue path title body ;; ret (Some r)
  end.

Definition main (fuel : nat) (cmd : option command) : M (option cli_result) :=
  match cmd with
  | None => print CliHelp ;;; ret (Some Returned)
  | Some c => GitAICLI.init ;;; dispatch fuel c
  end.

(** ** Runs

    A client of the two classes is a sequence of calls on one
    [GitHubIntegration] object: methods of the class, commands of the
    command line, or [main] as a whole. *)
Inductive call :=
  | CallNew (cfg : option GitHubConfig)
  | CallSetupSession
  | CallAuthenticate (tok : option string)
  | CallSaveConfig
  | CallLoadConfig
  | CallGetUserRepos (include_private : bool)
  | CallGetRepoInfo (owner repo_name : string)
  | CallCreateRepository (name description : string) (private : bool)
  | CallGetRepoBranches (owner repo_name : string)
  | CallGetRepoCommits (owner repo_name branch : string) (limit : Z)
  | CallCreateIssue (owner repo_name title body : string)
      (labels : option (list string))
  | CallGetRepoIssues (owner repo_name issue_state : string)
  | CallSetupGithubIntegration
  | CallCommand (cmd : command)
  | CallMain (cmd : option command).

Definition run_call (fuel : nat) (c : call) : M unit :=
  match c with
  | CallNew cfg => GitHubIntegration_init cfg
  | CallSetupSession => _setup_session
  | CallAuthenticate tok => authenticate tok ;;; ret tt
  | CallSaveConfig => _save_config
  | CallLoadConfig => _load_config
  | CallGetUserRepos include_private =>
      get_user_repos fuel include_private ;;; ret tt
  | CallGetRepoInfo owner repo_name => get_repo_info owner repo_name ;;; ret tt
  | CallCreateRepository name description private =>
      create_repository name description private ;;; ret tt
  | CallGetRepoBranches owner repo_name =>
      get_repo_branches owner repo_name ;;; ret tt
  | CallGetRepoCommits owner repo_name branch limit =>
      get_repo_commits owner repo_name branch limit ;;; ret tt
  | CallCreateIssue owner repo_name title body labels =>
      create_issue owner repo_name title body labels ;;; ret tt
  | CallGetRepoIssues owner repo_name issue_state =>
      get_repo_issues owner repo_name issue_state ;;; ret tt
  | CallSetupGithubIntegration => setup_github_integration
  | CallCommand cmd => dispatch fuel cmd ;;; ret tt
  | CallMain cmd => main fuel cmd ;;; ret tt
  end.

Fixpoint run_calls (fuel : nat) (cs : list call) : M unit :=
  match cs with
  | [] => ret tt
  | c :: rest => run_call fuel c ;;; run_calls fuel rest
  end.

(** ** Vocabulary of the statements *)

(** The token [authenticate tok] goes on with: the argument, else the one
    the session holds, else the environment variable. *)
Definition chosen_token (env : environment) (st : state) (tok : option string)
    : option string :=
  if has_token tok then tok
  else if has_token (token (config st)) then token (config st)
  else getenv env "GITHUB_TOKEN".

(** The session headers once [_setup_session] has run with token [t]. *)
Definition auth_headers (t : string) (h : gmap string string)
    : gmap string string :=
  <["User-Agent" := "GitAI-CLI/1.0"]>
    (<["Accept" := "application/vnd.github.v3+json"]>
      (<["Authorization" := "token " +:+ t]> h)).

(** The verification call of [authenticate] for the token [t]. *)
Definition verification_request (t : string) (st : state) : request :=
  {| req_method := GET; req_base := api_base_url (config st);
     req_path := "/user"; req_params := ∅; req_json := None;
     req_headers := auth_headers t (session_headers st) |}.

(** The document [_save_config] dumps. *)
Definition config_document (c : GitHubConfig) : json :=
  JObj [("username", username c); ("api_base_url", api_base_url c)].

(** The verification call fails: a transport error, or a status other
    than 200. *)
Definition verification_fails (r : outcome response) : Prop :=
  match r with
  | Raise _ => True
  | Return resp => status_code resp <> 200%Z
  end.

(** What [authenticate] leaves behind after a successful verification:
    the document is in the file, or [open] raised [e] and only the warning
    was printed. *)
Definition saved_or_warned (env : environment) (st st' : state) (login : json)
    : Prop :=
  let path := config_file (config st) in
  let doc := JObj [("username", login);
                   ("api_base_url", api_base_url (config st))] in
  match open_write env path with
  | None =>
      write_log st' = write_log st ++ [(path, doc)] /\
      files st' = <[path := Return doc]> (files st) /\
      stdout st' = stdout st ++ [MsgAuthOk login]
  | Some e =>
      write_log st' = write_log st /\
      files st' = files st /\
      stdout st' = stdout st ++ [MsgAuthOk login; MsgSaveWarning e]
  end.

(** The three single-request listings, told apart by a tag. *)
Inductive listing :=
  | Branches
  | Commits (branch : string) (limit : Z)
  | Issues (issue_state : string).

Definition run_listing (l : listing) (owner repo_name : string) : M json :=
  match l with
  | Branches => get_repo_branches owner repo_name
  | Commits branch limit => get_repo_commits owner repo_name branch limit
  | Issues issue_state => get_repo_issues owner repo_name issue_state
  end.

Definition listing_path (l : listing) (owner repo_name : string) : string :=
  repo_url owner repo_name +:+
  match l with
  | Branches => "/branches"
  | Commits _ _ => "/commits"
  | Issues _ => "/issues"
  end.

Definition listing_params (l : listing) : gmap string json :=
  match l with
  | Branches => ∅
  | Commits branch limit =>
      <["per_page" := JNum limit]> (<["sha" := JStr branch]> ∅)
  | Issues issue_state =>
      <["direction" := JStr "desc"]>
        (<["sort" := JStr "updated"]> (<["state" := JStr issue_state]> ∅))
  end.

Definition listing_request (l : listing) (owner repo_name : string)
    (st : state) : request :=
  build_request GET (listing_path l owner repo_name) (listing_params l) None st.

Definition listing_failed (l : listing) (status : Z) : msg :=
  match l with
  | Branches => MsgBranchesFailed status
  | Commits _ _ => MsgCommitsFailed status
  | Issues _ => MsgIssuesFailed status
  end.

(** The body [create_issue] posts when no labels are given. *)
Definition issue_request (owner repo_name title body : string) (st : state)
    : request :=
  build_request POST (repo_url owner repo_name +:+ "/issues") ∅
    (Some (JObj [("title", JStr title); ("body", JStr body)])) st.

(** The request of [get_user_repos] for one page. *)
Definition page_request (st : state) (include_private : bool) (page : Z)
    : request :=
  build_request GET "/user/repos" (repos_params include_private page) None st.

(** The requests for [n] consecutive pages from [first] on. *)
Fixpoint page_requests (st : state) (include_private : bool) (first : Z)
    (n : nat) : list request :=
  match n with
  | O => []
  | S n' =>
      page_request st include_private first
        :: page_requests st include_private (first + 1) n'
  end.

(** The answer to the request for page [first + n], the pages before it
    having been requested. *)
Definition page_response (env : environment) (st : state)
    (include_private : bool) (first : Z) (n : nat) : outcome response :=
  remote env (net_log st ++ page_requests st include_private first n)
    (page_request st include_private (first + Z.of_nat n)).

(** One iteration of the loop, seen from the answer: the items to append,
    or what is printed when the loop is left. *)
Definition page_of (r : outcome response) : list json + list msg :=
  match r with
  | Raise e => inr [MsgReposError e]
  | Return resp =>
      if (status_code resp =? 200)%Z then
        match resp_json resp with
        | Raise e => inr [MsgReposError e]
        | Return page_repos =>
            if py_truthy page_repos then
              match py_iter page_repos with
              | Raise e => inr [MsgReposError e]
              | Return items => inl items
              end
            else inr []
        end
      else inr [MsgReposFailed (status_code resp)]
  end.

(** The answer that ends the listing in the two ways the loop tests for:
    a status other than 200, or an empty page. *)
Definition ends_listing (r : outcome response) : Prop :=
  match r with
  | Return resp =>
      status_code resp <> 200%Z \/ resp_json resp = Return (JArr [])
  | Raise _ => False
  end.

(** [repo['private']] as cli.py tests it. *)
Definition is_private (r : json) : bool :=
  match py_getitem r "private" with
  | Return v => py_truthy v
  | Raise _ => false
  end.

(** The remote applies the [visibility=public] filter: no page it sends
    in answer to such a request holds a private repository. *)
Definition honours_public_filter (env : environment) : Prop :=
  forall history req resp v items,
    req_params req !! "visibility" = Some (JStr "public") ->
    remote env history req = Return resp ->
    status_code resp = 200%Z ->
    resp_json resp = Return v ->
    py_iter v = Return items ->
    Forall (fun r => is_private r = false) items.

(** The keys of a dict, in order. *)
Definition json_keys (doc : json) : option (list string) :=
  match doc with
  | JObj fields => Some (map fst fields)
  | _ => None
  end.

(** A document with the two fields of the config file and no other. *)
Definition is_config_document (doc : json) : Prop :=
  json_keys doc = Some ["username"; "api_base_url"].

(** From [st] to [st'], every document written and every file changed is
    a config document. *)
Definition only_config_written (st st' : state) : Prop :=
  (exists written,
     write_log st' = write_log st ++ written /\
     Forall (fun w => is_config_document (snd w)) written) /\
  (forall path,
     files st' !! path = files st !! path \/
     exists doc, files st' !! path = Some (Return doc) /\ is_config_document doc).

(** [m] takes every state to one related to it by [R]. *)
Definition preserves (R : state -> state -> Prop) {A} (m : M A) : Prop :=
  forall env st, R st (snd (m env st)).

(** ** Small environments and states for the examples *)

(** A machine with no [GITHUB_TOKEN], a writable home directory and the
    given remote. *)
Definition serving (r : list request -> request -> outcome response)
    : environment :=
  {| remote := r;
     getenv := fun _ => None;
     open_write := fun _ => None;
     stdin_line := "";
     home_config := "~/.gitai_config.json";
     default_headers := ∅ |}.

Definition offline : environment :=
  serving (fun _ _ => Raise (RequestException "connection refused")).

Definition answer (status : Z) (body : json) : outcome response :=
  Return {| status_code := status; text := ""; resp_json := Return body |}.

(** A process that has just created its client, on an empty disk. *)
Definition fresh : state :=
  {| config := default_config "~/.gitai_config.json";
     session_headers := ∅; files := ∅; stdout := []; net_log := [];
     write_log := []; env_reads := [] |}.

Definition logged_in (t : string) : state :=
  set_session_headers (auth_headers t ∅)
    (set_config (set_token (Some t) (config fresh)) fresh).

Definition unauthorized : environment :=
  serving
    (fun _ _ =>
      Return {| status_code := 401; text := "Bad credentials";
                resp_json := Return (JObj [("message", JStr "Bad credentials")]) |}).

(** GitHub answering [GET /user] for the account [octocat]. *)
Definition octocat_user : outcome response :=
  answer 200 (JObj [("login", JStr "octocat"); ("id", JNum 583231)]).

Definition github_octocat : environment := serving (fun _ _ => octocat_user).

(** The same with a config file that cannot be opened for writing. *)
Definition github_octocat_readonly : environment :=
  {| remote := fun _ _ => octocat_user;
     getenv := fun _ => None;
     open_write := fun _ => Some (OSError "Permission denied");
     stdin_line := "";
     home_config := "~/.gitai_config.json";
     default_headers := ∅ |}.

Definition not_found : environment :=
  serving
    (fun _ _ =>
      Return {| status_code := 404; text := "Not Found";
                resp_json := Return (JObj [("message", JStr "Not Found")]) |}).


Definition repo (full_name : string) (private : bool) : json :=
  JObj [("full_name", JStr full_name); ("private", JBool private)].

(** A remote with three repositories on two pages. *)
Definition two_pages : environment :=
  serving
    (fun _ req =>
      match req_params req !! "page" with
      | Some (JNum 1) =>
          answer 200 (JArr [repo "octocat/a" false; repo "octocat/b" false])
      | Some (JNum 2) => answer 200 (JArr [repo "octocat/c" false])
      | _ => answer 200 (JArr [])
      end).

(** A remote that applies the filter. *)
Definition filtering : environment :=
  serving
    (fun _ req =>
      match req_params req !! "page", req_params req !! "visibility" with
      | Some (JNum 1), Some (JStr "public") =>
          answer 200 (JArr [repo "octocat/a" false])
      | Some (JNum 1), _ =>
          answer 200 (JArr [repo "octocat/a" false; repo "octocat/secret" true])
      | _, _ => answer 200 (JArr [])
      end).

(** A remote that ignores the [visibility] parameter. *)
Definition leaky : environment :=
  serving
    (fun _ req =>
      match req_params req !! "page" with
      | Some (JNum 1) =>
          answer 200 (JArr [repo "octocat/a" false; repo "octocat/secret" true])
      | _ => answer 200 (JArr [])
      end).

(** ** Vocabulary of the further properties *)

(** The repository path a command takes, if it takes one. *)
Definition command_path (cmd : command) : option string :=
  match cmd with
  | CmdRepo path | CmdBranches path | CmdCommits path _ _
  | CmdIssues path _ | CmdCreateIssue path _ _ => Some path
  | CmdAuth _ | CmdRepos _ | CmdCreate _ _ _ => None
  end.

(** The one request of each command that reads a repository, for the
    path as typed. *)
Definition read_request (cmd : command) (st : state) : option request :=
  match cmd with
  | CmdRepo path => Some (build_request GET ("/repos/" +:+ path) ∅ None st)
  | CmdBranches path =>
      Some (build_request GET (("/repos/" +:+ path) +:+ "/branches") ∅ None st)
  | CmdCommits path branch limit =>
      Some (build_request GET (("/repos/" +:+ path) +:+ "/commits")
              (<["per_page" := JNum limit]> (<["sha" := JStr branch]> ∅))
              None st)
  | CmdIssues path issue_state =>
      Some (build_request GET (("/repos/" +:+ path) +:+ "/issues")
              (<["direction" := JStr "desc"]>
                 (<["sort" := JStr "updated"]>
                    (<["state" := JStr issue_state]> ∅)))
              None st)
  | _ => None
  end.

(** The body [create_repository] posts. *)
Definition repository_request (name description : string) (private : bool)
    (st : state) : request :=
  build_request POST "/user/repos" ∅
    (Some (JObj [("name", JStr name); ("description", JStr description);
                 ("private", JBool private); ("auto_init", JBool true)])) st.

(** A remote that always has one more full page. *)
Definition never_empty (env : environment) : Prop :=
  forall history req,
    exists resp x rest,
      remote env history req = Return resp /\
      status_code resp = 200%Z /\
      resp_json resp = Return (JArr (x :: rest)).

(** A truthy value that cannot be iterated over. *)
Definition scalar (v : json) : bool :=
  match v with
  | JBool _ | JNum _ | JFloat _ => py_truthy v
  | _ => false
  end.

(** The commands that test the token before they send anything and
    take no path. *)
Definition token_guarded (cmd : command) : bool :=
  match cmd with
  | CmdRepos _ | CmdCreate _ _ _ => true
  | _ => false
  end.

(** The commands that loop over what the remote sent. *)
Definition is_listing (cmd : command) : bool :=
  match cmd with
  | CmdBranches _ | CmdCommits _ _ _ | CmdIssues _ _ => true
  | _ => false
  end.

(** The line a listing command prints before its items. *)
Definition listing_header (cmd : command) : list msg :=
  match cmd with
  | CmdBranches path => [CliBranchesHeader path]
  | CmdCommits path branch _ => [CliCommitsHeader path branch]
  | CmdIssues path issue_state => [CliIssuesHeader issue_state path]
  | _ => []
  end.

(** ** More environments and states for the examples *)

(** [serving r] with [GITHUB_TOKEN] set to [t]. *)
Definition with_token (t : string) (env : environment) : environment :=
  {| remote := remote env;
     getenv := fun name =>
       if String.eqb name "GITHUB_TOKEN" then Some t else None;
     open_write := open_write env;
     stdin_line := stdin_line env;
     home_config := home_config env;
     default_headers := default_headers env |}.

(** A disk whose config file points the client at another server. *)
Definition redirected : state :=
  {| config := default_config "~/.gitai_config.json";
     session_headers := ∅;
     files := {[ "~/.gitai_config.json" :=
                   Return (JObj [("username", JStr "octocat");
                                 ("api_base_url", JStr "https://example.org")]) ]};
     stdout := []; net_log := []; write_log := []; env_reads := [] |}.

(** A disk whose config file is not JSON. *)
Definition corrupted : state :=
  {| config := default_config "~/.gitai_config.json";
     session_headers := ∅;
     files := {[ "~/.gitai_config.json" :=
                   Raise (JSONDecodeError "Expecting value") ]};
     stdout := []; net_log := []; write_log := []; env_reads := [] |}.

Definition endless : environment :=
  serving (fun _ _ => answer 200 (JArr [repo "octocat/a" false])).

(** The remote creates what it is asked to and answers with an empty
    object. *)
Definition terse : environment := serving (fun _ _ => answer 201 (JObj [])).

(** The remote answers every request with status 200 and the number 5. *)
Definition five : environment := serving (fun _ _ => answer 200 (JNum 5)).

Definition server_error : environment :=
  serving
    (fun _ _ =>
      Return {| status_code := 500; text := "Internal Server Error";
                resp_json := Raise (JSONDecodeError "Expecting value") |}).

(** The first page arrives, then the connection drops. *)
Definition one_page_then_down : environment :=
  serving
    (fun _ req =>
      match req_params req !! "page" with
      | Some (JNum 1) => answer 200 (JArr [repo "octocat/a" false])
      | _ => Raise (RequestException "connection reset")
      end).

(** The state a new client starts from: the default configuration and
    the headers of a new session; the world is as before. *)
Definition constructed (env : environment) (st : state) : state :=
  set_session_headers (default_headers env)
    (set_config (default_config (home_config env)) st).

(** The state after a new client has read its config file. *)
Definition restarted (env : environment) (st : state) : state :=
  snd (_load_config env (constructed env st)).

(** ** Properties of [authenticate] *)

Lemma nonempty_eqb (s : string) : s <> "" -> String.eqb s "" = false.
Proof. intros H. destruct (String.eqb_spec s ""); [contradiction|reflexivity]. Qed.

(** Unfolding the monad. *)
Ltac run :=
  unfold bind, ret, get_config, modify_config, print, os_getenv,
    headers_update, session_get, session_post, session_send, dump_to_file,
    read_file, input_stripped in *.

(** C5. Without an explicit token, without a token in the session and
    without [GITHUB_TOKEN] in the environment (absent or empty in each
    case), [authenticate] prints the no-token message, returns [False] and
    sends no request; nothing is written either. *)
Theorem authenticate_no_credentials env st tok :
  has_token tok = false ->
  has_token (token (config st)) = false ->
  has_token (getenv env "GITHUB_TOKEN") = false ->
  fst (authenticate tok env st) = false /\
  net_log (snd (authenticate tok env st)) = net_log st /\
  stdout (snd (authenticate tok env st)) = stdout st ++ [MsgNoToken] /\
  write_log (snd (authenticate tok env st)) = write_log st /\
  files (snd (authenticate tok env st)) = files st.
Proof.
  intros Htok Hheld Henv.
  unfold authenticate. run.
  rewrite Htok, Hheld. simpl. rewrite Henv. simpl.
  repeat split.
Qed.

Lemma authenticate_no_credentials_witness :
  fst (authenticate None offline fresh) = false /\
  net_log (snd (authenticate None offline fresh)) = [].
Proof.
  destruct (authenticate_no_credentials offline fresh None) as (H1 & H2 & _);
    [reflexivity | reflexivity | reflexivity |].
  split; [exact H1 | exact H2].
Defined.

(** Case analysis on whatever the code branches on next. *)
Ltac branch :=
  match goal with
  | |- context [match ?x with _ => _ end] =>
      lazymatch x with
      | context [match _ with _ => _ end] => fail
      | _ => destruct x eqn:?
      end
  | |- context [if ?x then _ else _] =>
      lazymatch x with
      | context [if _ then _ else _] => fail
      | _ => destruct x eqn:?
      end
  end.

Ltac branches := repeat (branch; simpl in *; try discriminate).

(** C10. [authenticate] takes its token from the explicit argument, else
    from the session, else from [GITHUB_TOKEN]; the token it leaves in the
    session is the one chosen in that order, and the environment variable
    is read exactly when neither the argument nor the session gives one. *)
Theorem authenticate_token_precedence env st tok :
  token (config (snd (authenticate tok env st))) = chosen_token env st tok /\
  env_reads (snd (authenticate tok env st)) =
    env_reads st ++
    (if has_token tok || has_token (token (config st)) then []
     else ["GITHUB_TOKEN"]).
Proof.
  unfold authenticate, chosen_token, _setup_session, _save_config. run.
  destruct (has_token tok) eqn:Htok; simpl.
  - rewrite Htok. simpl. branches; rewrite ?app_nil_r; split; reflexivity.
  - destruct (has_token (token (config st))) eqn:Hheld; simpl.
    + rewrite Hheld. simpl.
      branches; rewrite ?app_nil_r; split; congruence.
    + branches; split; congruence.
Qed.

Arguments verification_request : simpl never.

(** Names the request of the goal as the verification call for [t]. *)
Ltac fold_verification t st :=
  match goal with
  | |- context [remote ?env ?log ?r] =>
      change (remote env log r)
        with (remote env (net_log st) (verification_request t st))
  end.

(** C9. When the verification call fails (transport error or a status
    other than 200), [authenticate] returns [False], leaves [username]
    and the files as they were and writes nothing; the token it tried is
    by then stored in the session and the session headers carry it. *)
Theorem authenticate_failure_after_call env st tok t :
  chosen_token env st tok = Some t ->
  t <> "" ->
  verification_fails (remote env (net_log st) (verification_request t st)) ->
  fst (authenticate tok env st) = false /\
  net_log (snd (authenticate tok env st)) =
    net_log st ++ [verification_request t st] /\
  username (config (snd (authenticate tok env st))) = username (config st) /\
  files (snd (authenticate tok env st)) = files st /\
  write_log (snd (authenticate tok env st)) = write_log st /\
  token (config (snd (authenticate tok env st))) = Some t /\
  session_headers (snd (authenticate tok env st)) =
    auth_headers t (session_headers st).
Proof.
  intros Hchosen Ht Hfail.
  pose proof (nonempty_eqb t Ht) as Hne.
  unfold chosen_token in Hchosen.
  unfold authenticate, _setup_session. run.
  destruct (has_token tok) eqn:Htok; simpl.
  - subst tok. rewrite Htok. simpl. rewrite Hne. simpl.
    fold_verification t st.
    destruct (remote env (net_log st) (verification_request t st))
      as [resp|e]; simpl in *.
    + destruct (Z.eqb_spec (status_code resp) 200); [contradiction|].
      simpl. repeat split.
    + repeat split.
  - destruct (has_token (token (config st))) eqn:Hheld; simpl.
    + rewrite Hheld. simpl. rewrite Hchosen, Hne. simpl.
      fold_verification t st.
      destruct (remote env (net_log st) (verification_request t st))
        as [resp|e]; simpl in *.
      * destruct (Z.eqb_spec (status_code resp) 200); [contradiction|].
        simpl. repeat split; assumption.
      * repeat split; assumption.
    + rewrite Hchosen. simpl. repeat (rewrite Hne; simpl).
      fold_verification t st.
      destruct (remote env (net_log st) (verification_request t st))
        as [resp|e]; simpl in *.
      * destruct (Z.eqb_spec (status_code resp) 200); [contradiction|].
        simpl. repeat split.
      * repeat split.
Qed.

Lemma authenticate_failure_after_call_witness :
  fst (authenticate (Some "bad") unauthorized fresh) = false /\
  username (config (snd (authenticate (Some "bad") unauthorized fresh))) = JNull /\
  write_log (snd (authenticate (Some "bad") unauthorized fresh)) = [] /\
  token (config (snd (authenticate (Some "bad") unauthorized fresh))) = Some "bad".
Proof.
  destruct (authenticate_failure_after_call unauthorized fresh (Some "bad") "bad")
    as (H1 & _ & H3 & _ & H5 & H6 & _).
  - reflexivity.
  - discriminate.
  - simpl. lia.
  - repeat split; assumption.
Defined.

(** C7, amended. With a token and a verification call answered by status
    200 and an object with a [login] field, [authenticate] stores the
    login as [username], calls [_save_config] and returns [True];
    [_save_config] writes [{username, api_base_url}] to the config file
    unless [open] raises, in which case it prints a warning and nothing
    is written. *)
Theorem authenticate_success env st tok t resp fields login :
  chosen_token env st tok = Some t ->
  t <> "" ->
  remote env (net_log st) (verification_request t st) = Return resp ->
  status_code resp = 200%Z ->
  resp_json resp = Return (JObj fields) ->
  assoc "login" fields = Some login ->
  fst (authenticate tok env st) = true /\
  username (config (snd (authenticate tok env st))) = login /\
  saved_or_warned env st (snd (authenticate tok env st)) login.
Proof.
  intros Hchosen Ht Hr Hstatus Hjson Hlogin.
  pose proof (nonempty_eqb t Ht) as Hne.
  unfold chosen_token in Hchosen.
  unfold saved_or_warned, authenticate, _setup_session, _save_config. run.
  destruct (has_token tok) eqn:Htok; simpl.
  - subst tok. rewrite Htok. simpl. repeat (rewrite Hne; simpl).
    fold_verification t st. rewrite Hr. simpl.
    rewrite Hstatus, Hjson. simpl. rewrite Hlogin. simpl.
    destruct (open_write env (config_file (config st))); simpl;
      rewrite <- ?app_assoc; repeat split.
  - destruct (has_token (token (config st))) eqn:Hheld; simpl.
    + rewrite Hheld. simpl. rewrite Hchosen. repeat (rewrite Hne; simpl).
      fold_verification t st. rewrite Hr. simpl.
      rewrite Hstatus, Hjson. simpl. rewrite Hlogin. simpl.
      destruct (open_write env (config_file (config st))); simpl;
        rewrite <- ?app_assoc; repeat split.
    + rewrite Hchosen. simpl. repeat (rewrite Hne; simpl).
      fold_verification t st. rewrite Hr. simpl.
      rewrite Hstatus, Hjson. simpl. rewrite Hlogin. simpl.
      destruct (open_write env (config_file (config st))); simpl;
        rewrite <- ?app_assoc; repeat split.
Qed.

Lemma authenticate_success_witness :
  fst (authenticate (Some "ghp_x") github_octocat fresh) = true /\
  username (config (snd (authenticate (Some "ghp_x") github_octocat fresh)))
    = JStr "octocat" /\
  write_log (snd (authenticate (Some "ghp_x") github_octocat fresh)) =
    [("~/.gitai_config.json",
      JObj [("username", JStr "octocat");
            ("api_base_url", JStr "https://api.github.com")])].
Proof.
  destruct (authenticate_success github_octocat fresh (Some "ghp_x") "ghp_x"
              {| status_code := 200; text := "";
                 resp_json := Return (JObj [("login", JStr "octocat");
                                            ("id", JNum 583231)]) |}
              [("login", JStr "octocat"); ("id", JNum 583231)]
              (JStr "octocat"))
    as (H1 & H2 & H3 & _).
  - reflexivity.
  - discriminate.
  - reflexivity.
  - reflexivity.
  - reflexivity.
  - reflexivity.
  - repeat split; assumption.
Defined.

(** C7 as stated fails: the verification call is answered by 200 and a
    login, [authenticate] returns [True] and sets [username], and the
    config file is not written. *)
Lemma authenticate_success_without_write :
  remote github_octocat_readonly (net_log fresh)
    (verification_request "ghp_x" fresh) = octocat_user /\
  fst (authenticate (Some "ghp_x") github_octocat_readonly fresh) = true /\
  username (config (snd (authenticate (Some "ghp_x") github_octocat_readonly fresh)))
    = JStr "octocat" /\
  files (snd (authenticate (Some "ghp_x") github_octocat_readonly fresh))
    !! "~/.gitai_config.json" = None /\
  write_log (snd (authenticate (Some "ghp_x") github_octocat_readonly fresh)) = [].
Proof. repeat split. Qed.

(** ** The single-request listings *)

(** C8. When the remote answers a listing of branches, commits or issues
    with a status other than 200, the operation sends that one request,
    prints the failure message with the status and returns the empty
    list. *)
Theorem listing_non_200_is_empty env st l owner repo_name resp :
  remote env (net_log st) (listing_request l owner repo_name st) = Return resp ->
  status_code resp <> 200%Z ->
  run_listing l owner repo_name env st =
    (JArr [],
     set_stdout (stdout st ++ [listing_failed l (status_code resp)])
       (set_net_log (net_log st ++ [listing_request l owner repo_name st]) st)).
Proof.
  intros Hr Hstatus.
  apply Z.eqb_neq in Hstatus.
  destruct l; unfold run_listing, get_repo_branches, get_repo_commits,
    get_repo_issues, listing_request, listing_path, listing_params in *;
    run; rewrite Hr; simpl; rewrite Hstatus; reflexivity.
Qed.

Lemma listing_non_200_is_empty_witness :
  fst (get_repo_commits "octocat" "missing" "main" 10 not_found fresh) = JArr [] /\
  stdout (snd (get_repo_commits "octocat" "missing" "main" 10 not_found fresh)) =
    [MsgCommitsFailed 404].
Proof.
  pose proof (listing_non_200_is_empty not_found fresh (Commits "main" 10)
                "octocat" "missing"
                {| status_code := 404; text := "Not Found";
                   resp_json := Return (JObj [("message", JStr "Not Found")]) |})
    as H.
  simpl run_listing in H. rewrite H.
  - split; reflexivity.
  - reflexivity.
  - simpl. lia.
Defined.

(** ** Repository paths *)

Lemma py_split_length sep s :
  length (py_split sep s) = S (count_char sep s).
Proof.
  induction s as [|c rest IH]; simpl; [reflexivity|].
  destruct (Ascii.eqb c sep); simpl.
  - rewrite IH. reflexivity.
  - destruct (py_split sep rest) as [|piece pieces]; simpl in *; congruence.
Qed.

Lemma split_repo_path_malformed repo_path :
  count_char "/" repo_path <> 1%nat ->
  split_repo_path repo_path = Raise (ValueError "unpack").
Proof.
  intros H. unfold split_repo_path.
  pose proof (py_split_length "/" repo_path) as Hlen.
  destruct (py_split "/" repo_path) as [|a [|b [|c rest]]]; simpl in Hlen;
    try reflexivity.
  congruence.
Qed.

Lemma split_repo_path_well_formed repo_path :
  count_char "/" repo_path = 1%nat ->
  exists owner repo_name, split_repo_path repo_path = Return (owner, repo_name).
Proof.
  intros H. unfold split_repo_path.
  pose proof (py_split_length "/" repo_path) as Hlen. rewrite H in Hlen.
  destruct (py_split "/" repo_path) as [|a [|b [|c rest]]]; simpl in Hlen;
    try discriminate.
  eauto.
Qed.

(** C4. A repository path with no ['/'] or with more than one is rejected
    by the repo-info command before anything is sent: it prints the
    invalid-format message and returns, and nothing else of the state
    changes (no request is logged). *)
Theorem get_repo_info_rejects_malformed env st repo_path :
  count_char "/" repo_path = 0%nat \/ (1 < count_char "/" repo_path)%nat ->
  GitAICLI.get_repo_info repo_path env st =
    (Returned, set_stdout (stdout st ++ [CliInvalidPath]) st) /\
  net_log (snd (GitAICLI.get_repo_info repo_path env st)) = net_log st.
Proof.
  intros H. unfold GitAICLI.get_repo_info.
  rewrite split_repo_path_malformed by lia.
  split; reflexivity.
Qed.

Lemma get_repo_info_rejects_malformed_witness :
  GitAICLI.get_repo_info "octocat/hello/world" github_octocat fresh =
    (Returned, set_stdout [CliInvalidPath] fresh) /\
  GitAICLI.get_repo_info "octocat" github_octocat fresh =
    (Returned, set_stdout [CliInvalidPath] fresh).
Proof.
  split.
  - apply (get_repo_info_rejects_malformed github_octocat fresh
             "octocat/hello/world"). right. simpl. lia.
  - apply (get_repo_info_rejects_malformed github_octocat fresh "octocat").
    left. reflexivity.
Defined.

(** ** Creating an issue *)

(** The library method has no guard of its own: without a token it still
    sends the request. The guard is the one of the command in cli.py. *)
Lemma create_issue_sends_without_token env st owner repo_name title body :
  net_log (snd (create_issue owner repo_name title body None env st)) =
    net_log st ++ [issue_request owner repo_name title body st].
Proof.
  unfold create_issue, issue_request. run. simpl.
  branches; reflexivity.
Qed.



(** ** Listing the repositories *)

Lemma get_user_repos_loop_step env st fuel include_private repos page :
  get_user_repos_loop (S fuel) include_private repos page env st =
    let st' :=
      set_net_log (net_log st ++ [page_request st include_private page]) st in
    match page_of (remote env (net_log st)
                     (page_request st include_private page)) with
    | inl items =>
        get_user_repos_loop fuel include_private (repos ++ items) (page + 1)
          env st'
    | inr out => (Some repos, set_stdout (stdout st ++ out) st')
    end.
Proof.
  simpl. run. fold (page_request st include_private page).
  unfold page_of.
  destruct (remote env (net_log st) (page_request st include_private page))
    as [resp|e]; simpl; [|reflexivity].
  destruct (status_code resp =? 200)%Z; simpl; [|reflexivity].
  destruct (resp_json resp) as [v|e]; simpl; [|reflexivity].
  destruct (py_truthy v); simpl.
  - destruct (py_iter v); reflexivity.
  - unfold set_stdout, set_net_log. simpl. rewrite app_nil_r. reflexivity.
Qed.

Lemma page_requests_lookup st include_private first n (i : nat) req :
  page_requests st include_private first n !! i = Some req ->
  req = page_request st include_private (first + Z.of_nat i).
Proof.
  revert first i. induction n as [|n IH]; intros first i; simpl.
  - destruct i; discriminate.
  - destruct i as [|i]; simpl.
    + intros [= <-]. f_equal. lia.
    + intros H. apply IH in H. subst req. f_equal. lia.
Qed.

Lemma page_request_params st include_private page :
  req_method (page_request st include_private page) = GET /\
  req_path (page_request st include_private page) = "/user/repos" /\
  req_params (page_request st include_private page) !! "page"
    = Some (JNum page) /\
  req_params (page_request st include_private page) !! "per_page"
    = Some (JNum 100) /\
  req_params (page_request st include_private page) !! "visibility"
    = Some (JStr (if include_private then "all" else "public")).
Proof. repeat split. Qed.

Lemma page_request_frame st include_private page log :
  page_request (set_net_log log st) include_private page =
    page_request st include_private page.
Proof. reflexivity. Qed.

Lemma page_requests_frame st include_private first n log :
  page_requests (set_net_log log st) include_private first n =
    page_requests st include_private first n.
Proof.
  revert first. induction n as [|n IH]; intros first; simpl;
    [reflexivity | rewrite IH; reflexivity].
Qed.

Arguments page_request : simpl never.
Arguments page_requests : simpl never.

Lemma page_requests_S st include_private first n :
  page_requests st include_private first (S n) =
    page_request st include_private first
      :: page_requests st include_private (first + 1) n.
Proof. reflexivity. Qed.

Lemma page_response_0 env st include_private first :
  page_response env st include_private first 0 =
    remote env (net_log st) (page_request st include_private first).
Proof.
  unfold page_response. rewrite Z.add_0_r.
  change (page_requests st include_private first 0) with (@nil request).
  rewrite app_nil_r. reflexivity.
Qed.

Lemma page_response_S env st include_private first n :
  page_response env st include_private first (S n) =
    page_response env
      (set_net_log (net_log st ++ [page_request st include_private first]) st)
      include_private (first + 1) n.
Proof.
  unfold page_response.
  rewrite page_requests_frame, page_request_frame, page_requests_S.
  cbn [net_log set_net_log]. rewrite <- app_assoc.
  replace (first + 1 + Z.of_nat n)%Z with (first + Z.of_nat (S n))%Z by lia.
  reflexivity.
Qed.

Lemma get_user_repos_loop_run env include_private pages :
  forall st fuel repos first out,
    (forall i items, pages !! i = Some items ->
       page_of (page_response env st include_private first i) = inl items) ->
    page_of (page_response env st include_private first (length pages))
      = inr out ->
    (length pages < fuel)%nat ->
    get_user_repos_loop fuel include_private repos first env st =
      (Some (repos ++ concat pages),
       set_stdout (stdout st ++ out)
         (set_net_log
            (net_log st ++
             page_requests st include_private first (S (length pages))) st)).
Proof.
  induction pages as [|items pages IH];
    intros st fuel repos first out Hpages Hstop Hfuel;
    (destruct fuel as [|fuel]; [simpl in Hfuel; lia|]);
    rewrite get_user_repos_loop_step; cbv zeta.
  - cbn [length] in Hstop. rewrite page_response_0 in Hstop.
    rewrite Hstop. cbn [concat]. rewrite app_nil_r. reflexivity.
  - pose proof (Hpages O items eq_refl) as H0.
    rewrite page_response_0 in H0. rewrite H0.
    rewrite (IH _ fuel (repos ++ items) (first + 1)%Z out).
    + rewrite page_requests_frame.
      rewrite (page_requests_S st include_private first (length (items :: pages))).
      cbn [concat length]. unfold set_stdout, set_net_log.
      cbn [config session_headers files stdout net_log write_log env_reads].
      rewrite <- !app_assoc. reflexivity.
    + intros i its Hi. rewrite <- page_response_S. apply Hpages. exact Hi.
    + rewrite <- page_response_S. exact Hstop.
    + simpl in Hfuel. lia.
Qed.

(** C1. With a token in the session, let the remote answer the requests
    for pages 1, 2, ... with status 200 and the non-empty lists [pages],
    and the next request with an empty page or with a status other than
    200. Then [get_user_repos] returns the lists concatenated in that
    order, having sent exactly one request more than there are pages, the
    i-th of them [GET /user/repos] with [page = i] and [per_page = 100]. *)
Theorem get_user_repos_paginates env st include_private pages fuel :
  has_token (token (config st)) = true ->
  (forall i items, pages !! i = Some items ->
     items <> [] /\
     exists resp,
       page_response env st include_private 1 i = Return resp /\
       status_code resp = 200%Z /\
       resp_json resp = Return (JArr items)) ->
  ends_listing (page_response env st include_private 1 (length pages)) ->
  (length pages < fuel)%nat ->
  fst (get_user_repos fuel include_private env st) = Some (concat pages) /\
  net_log (snd (get_user_repos fuel include_private env st)) =
    net_log st ++ page_requests st include_private 1 (S (length pages)) /\
  (forall (i : nat) req,
     page_requests st include_private 1 (S (length pages)) !! i = Some req ->
     req_method req = GET /\
     req_path req = "/user/repos" /\
     req_params req !! "page" = Some (JNum (1 + Z.of_nat i)) /\
     req_params req !! "per_page" = Some (JNum 100)).
Proof.
  intros Htok Hpages Hend Hfuel.
  assert (Hitems : forall i items, pages !! i = Some items ->
            page_of (page_response env st include_private 1 i) = inl items).
  { intros i items Hi. destruct (Hpages i items Hi) as (Hne & resp & -> & Hs & Hj).
    unfold page_of. rewrite Hs, Hj. simpl.
    destruct items; [contradiction|reflexivity]. }
  assert (Hstop : exists out,
            page_of (page_response env st include_private 1 (length pages))
              = inr out).
  { unfold ends_listing, page_of in *.
    destruct (page_response env st include_private 1 (length pages))
      as [resp|e]; [|contradiction].
    destruct (Z.eqb_spec (status_code resp) 200) as [Hs|Hs].
    - destruct Hend as [Hend|Hend]; [contradiction|].
      rewrite Hend. simpl. eauto.
    - eauto. }
  destruct Hstop as [out Hstop].
  unfold get_user_repos. run. rewrite Htok. cbn [negb].
  rewrite (get_user_repos_loop_run env include_private pages st fuel [] 1 out
             Hitems Hstop Hfuel).
  split; [reflexivity|]. split; [reflexivity|].
  intros i req Hreq. apply page_requests_lookup in Hreq. subst req.
  pose proof (page_request_params st include_private (1 + Z.of_nat i)) as Hp.
  tauto.
Qed.

Lemma get_user_repos_paginates_witness :
  fst (get_user_repos 5 true two_pages (logged_in "ghp_x")) =
    Some [repo "octocat/a" false; repo "octocat/b" false; repo "octocat/c" false].
Proof.
  destruct (get_user_repos_paginates two_pages (logged_in "ghp_x") true
              [[repo "octocat/a" false; repo "octocat/b" false];
               [repo "octocat/c" false]] 5) as (H & _).
  - reflexivity.
  - intros i items Hi. destruct i as [|[|i]]; simpl in Hi.
    + injection Hi as <-. split; [discriminate|].
      eexists. repeat split.
    + injection Hi as <-. split; [discriminate|].
      eexists. repeat split.
    + discriminate.
  - right. reflexivity.
  - simpl. lia.
  - exact H.
Defined.

Lemma page_of_inl r items :
  page_of r = inl items ->
  exists resp v,
    r = Return resp /\ status_code resp = 200%Z /\
    resp_json resp = Return v /\ py_iter v = Return items.
Proof.
  unfold page_of. destruct r as [resp|e]; [|discriminate].
  destruct (Z.eqb_spec (status_code resp) 200) as [Hs|Hs]; [|discriminate].
  destruct (resp_json resp) as [v|e] eqn:Hjson; [|discriminate].
  destruct (py_truthy v); [|discriminate].
  destruct (py_iter v) as [its|e] eqn:Hiter; [|discriminate].
  intros [= <-]. exists resp, v. repeat split; assumption.
Qed.

Lemma get_user_repos_loop_public env :
  honours_public_filter env ->
  forall fuel st repos page res,
    Forall (fun r => is_private r = false) repos ->
    fst (get_user_repos_loop fuel false repos page env st) = Some res ->
    Forall (fun r => is_private r = false) res.
Proof.
  intros Hremote. induction fuel as [|fuel IH]; intros st repos page res Hrepos.
  - discriminate.
  - rewrite get_user_repos_loop_step. cbv zeta.
    destruct (page_of _) as [items|out] eqn:Hpage.
    + apply IH. apply Forall_app. split; [exact Hrepos|].
      destruct (page_of_inl _ _ Hpage) as (resp & v & Hr & Hs & Hj & Hi).
      eapply Hremote; eauto. apply page_request_params.
    + simpl. intros [= <-]. exact Hrepos.
Qed.

Lemma get_user_repos_loop_requests env include_private :
  forall fuel st repos page,
  exists n,
    net_log (snd (get_user_repos_loop fuel include_private repos page env st)) =
      net_log st ++ page_requests st include_private page n.
Proof.
  induction fuel as [|fuel IH]; intros st repos page.
  - exists O. simpl. rewrite app_nil_r. reflexivity.
  - rewrite get_user_repos_loop_step. cbv zeta.
    destruct (page_of _) as [items|out].
    + destruct (IH (set_net_log
                      (net_log st ++ [page_request st include_private page]) st)
                  (repos ++ items) (page + 1)%Z) as [n Hn].
      exists (S n). rewrite Hn, page_requests_frame, page_requests_S.
      cbn [net_log set_net_log]. rewrite <- app_assoc. reflexivity.
    + exists 1%nat. reflexivity.
Qed.

(** C3, amended. [get_user_repos(include_private=False)] does not filter
    what it receives: every request it sends asks for
    [visibility=public], and when the remote applies that filter the
    list returned holds no private repository. *)
Theorem get_user_repos_public_only env st fuel :
  honours_public_filter env ->
  (exists sent,
     net_log (snd (get_user_repos fuel false env st)) = net_log st ++ sent /\
     Forall (fun req => req_params req !! "visibility" = Some (JStr "public"))
       sent) /\
  (forall repos,
     fst (get_user_repos fuel false env st) = Some repos ->
     Forall (fun r => is_private r = false) repos).
Proof.
  intros Hremote. unfold get_user_repos. run.
  destruct (has_token (token (config st))); cbn [negb].
  - split.
    + destruct (get_user_repos_loop_requests env false fuel st [] 1) as [n Hn].
      exists (page_requests st false 1 n). split; [exact Hn|].
      apply Forall_lookup. intros i req Hreq.
      apply page_requests_lookup in Hreq. subst req. apply page_request_params.
    + intros repos. apply get_user_repos_loop_public; [exact Hremote|constructor].
  - split.
    + exists []. simpl. rewrite app_nil_r. split; [reflexivity|constructor].
    + simpl. intros repos [= <-]. constructor.
Qed.

Lemma filtering_honours_public_filter : honours_public_filter filtering.
Proof.
  intros history req resp v items Hvis Hr _ Hj Hi.
  simpl in Hr. rewrite Hvis in Hr.
  destruct (req_params req !! "page") as [[| |n| | | |]|]; simpl in Hr;
    try (injection Hr as <-; simpl in Hj; injection Hj as <-; simpl in Hi;
         injection Hi as <-; constructor).
  destruct n as [|[p|p|]|p]; injection Hr as <-; simpl in Hj;
    injection Hj as <-; simpl in Hi; injection Hi as <-;
    repeat constructor.
Qed.

Lemma get_user_repos_public_only_witness :
  Forall (fun r => is_private r = false) [repo "octocat/a" false] /\
  fst (get_user_repos 5 false filtering (logged_in "ghp_x")) =
    Some [repo "octocat/a" false].
Proof.
  destruct (get_user_repos_public_only filtering (logged_in "ghp_x") 5
              filtering_honours_public_filter) as [_ H].
  split; [apply H|]; reflexivity.
Defined.

(** C3 as stated fails: asked for public repositories only, a remote that
    ignores the parameter makes [get_user_repos] return a private one. *)
Lemma get_user_repos_returns_private :
  fst (get_user_repos 5 false leaky (logged_in "ghp_x")) =
    Some [repo "octocat/a" false; repo "octocat/secret" true] /\
  is_private (repo "octocat/secret" true) = true /\
  In (repo "octocat/secret" true)
    [repo "octocat/a" false; repo "octocat/secret" true].
Proof. repeat split. right. left. reflexivity. Qed.

(** ** What reaches the disk *)

Section Preservation.

(** [R st st'] relates a state to a later one. The steps that do not
    touch the files are assumed to respect it, and so is the one write
    the code performs. *)
Variable R : state -> state -> Prop.
Hypothesis R_refl : forall st, R st st.
Hypothesis R_trans : forall st1 st2 st3, R st1 st2 -> R st2 st3 -> R st1 st3.
Hypothesis R_config : forall c st, R st (set_config c st).
Hypothesis R_headers : forall h st, R st (set_session_headers h st).
Hypothesis R_stdout : forall out st, R st (set_stdout out st).
Hypothesis R_net_log : forall log st, R st (set_net_log log st).
Hypothesis R_env_reads : forall names st, R st (set_env_reads names st).
Hypothesis R_write : forall st,
  R st (write_file (config_file (config st)) (config_document (config st)) st).

Lemma preserves_ret {A} (a : A) : preserves R (ret a).
Proof. intros env st. apply R_refl. Qed.

Lemma preserves_bind {A B} (m : M A) (k : A -> M B) :
  preserves R m -> (forall a, preserves R (k a)) -> preserves R (bind m k).
Proof.
  intros Hm Hk env st. unfold bind.
  specialize (Hm env st). destruct (m env st) as [a st1]. simpl in Hm.
  eapply R_trans; [exact Hm | apply Hk].
Qed.

Lemma preserves_get_config : preserves R get_config.
Proof. intros env st. apply R_refl. Qed.

Lemma preserves_modify_config f : preserves R (modify_config f).
Proof. intros env st. apply R_config. Qed.

Lemma preserves_print m : preserves R (print m).
Proof. intros env st. apply R_stdout. Qed.

Lemma preserves_os_getenv name : preserves R (os_getenv name).
Proof. intros env st. apply R_env_reads. Qed.

Lemma preserves_headers_update h : preserves R (headers_update h).
Proof. intros env st. apply R_headers. Qed.

Lemma preserves_session_send m path params body :
  preserves R (session_send m path params body).
Proof. intros env st. apply R_net_log. Qed.

Lemma preserves_read_file path : preserves R (read_file path).
Proof. intros env st. apply R_refl. Qed.

Lemma preserves_input_stripped : preserves R input_stripped.
Proof. intros env st. apply R_refl. Qed.

Lemma preserves_save_config : preserves R _save_config.
Proof.
  intros env st. unfold _save_config, dump_to_file. run.
  destruct (open_write env (config_file (config st))); simpl.
  - apply R_stdout.
  - apply R_write.
Qed.

Create HintDb preserve.
#[local] Hint Resolve preserves_ret preserves_get_config preserves_modify_config
  preserves_print preserves_os_getenv preserves_headers_update
  preserves_session_send preserves_read_file preserves_input_stripped
  preserves_save_config : preserve.

(** Follows the structure of a method: sequencing, then the branches. *)
Ltac preserve :=
  repeat first
    [ solve [unfold session_get, session_post; auto with preserve]
    | match goal with
      | |- preserves R (match ?x with _ => _ end) => destruct x
      | |- preserves R (if ?b then _ else _) => destruct b
      end
    | apply preserves_bind; [|intros ?] ].

Lemma preserves_setup_session : preserves R _setup_session.
Proof. unfold _setup_session. preserve. Qed.

Lemma preserves_authenticate tok : preserves R (authenticate tok).
Proof. unfold authenticate. pose proof preserves_setup_session. preserve. Qed.

Lemma preserves_load_config : preserves R _load_config.
Proof. unfold _load_config. preserve. Qed.

Lemma preserves_get_user_repos_loop fuel include_private :
  forall repos page,
    preserves R (get_user_repos_loop fuel include_private repos page).
Proof.
  induction fuel as [|fuel IH]; intros repos page; simpl; preserve.
Qed.

Lemma preserves_get_user_repos fuel include_private :
  preserves R (get_user_repos fuel include_private).
Proof.
  unfold get_user_repos.
  pose proof (preserves_get_user_repos_loop fuel include_private).
  preserve.
Qed.

Lemma preserves_get_repo_info owner repo_name :
  preserves R (get_repo_info owner repo_name).
Proof. unfold get_repo_info. preserve. Qed.

Lemma preserves_create_repository name description private :
  preserves R (create_repository name description private).
Proof. unfold create_repository. cbv zeta. preserve. Qed.

Lemma preserves_get_repo_branches owner repo_name :
  preserves R (get_repo_branches owner repo_name).
Proof. unfold get_repo_branches. preserve. Qed.

Lemma preserves_get_repo_commits owner repo_name branch limit :
  preserves R (get_repo_commits owner repo_name branch limit).
Proof. unfold get_repo_commits. cbv zeta. preserve. Qed.

Lemma preserves_create_issue owner repo_name title body labels :
  preserves R (create_issue owner repo_name title body labels).
Proof. unfold create_issue. cbv zeta. preserve. Qed.

Lemma preserves_get_repo_issues owner repo_name issue_state :
  preserves R (get_repo_issues owner repo_name issue_state).
Proof. unfold get_repo_issues. cbv zeta. preserve. Qed.

Lemma preserves_GitHubIntegration_init cfg :
  preserves R (GitHubIntegration_init cfg).
Proof.
  unfold GitHubIntegration_init. apply preserves_bind.
  - intros env st. simpl.
    eapply R_trans; [apply R_config | apply R_headers].
  - intros _. apply preserves_setup_session.
Qed.

Lemma preserves_setup_github_integration : preserves R setup_github_integration.
Proof.
  unfold setup_github_integration.
  pose proof (preserves_GitHubIntegration_init None).
  pose proof preserves_load_config.
  pose proof (preserves_authenticate None). preserve.
Qed.

Lemma preserves_print_all ms : preserves R (print_all ms).
Proof. induction ms as [|m ms IH]; simpl; preserve. Qed.

Lemma preserves_dispatch fuel cmd : preserves R (dispatch fuel cmd).
Proof.
  pose proof preserves_print_all.
  destruct cmd; simpl;
    unfold GitAICLI.authenticate, GitAICLI.list_repos,
      GitAICLI.get_repo_info, GitAICLI.create_repo, GitAICLI.list_branches,
      GitAICLI.list_commits, GitAICLI.list_issues, GitAICLI.create_issue.
  - pose proof preserves_authenticate. preserve.
  - pose proof preserves_get_user_repos. preserve.
  - pose proof preserves_get_repo_info. preserve.
  - pose proof preserves_create_repository. preserve.
  - pose proof preserves_get_repo_branches. preserve.
  - pose proof preserves_get_repo_commits. preserve.
  - pose proof preserves_get_repo_issues. preserve.
  - pose proof preserves_create_issue. preserve.
Qed.

Lemma preserves_main fuel cmd : preserves R (main fuel cmd).
Proof.
  unfold main, GitAICLI.init.
  pose proof preserves_setup_github_integration.
  pose proof preserves_dispatch. preserve.
Qed.

Lemma preserves_run_call fuel c : preserves R (run_call fuel c).
Proof.
  pose proof preserves_GitHubIntegration_init.
  pose proof preserves_setup_session. pose proof preserves_authenticate.
  pose proof preserves_load_config. pose proof preserves_get_user_repos.
  pose proof preserves_get_repo_info. pose proof preserves_create_repository.
  pose proof preserves_get_repo_branches. pose proof preserves_get_repo_commits.
  pose proof preserves_create_issue. pose proof preserves_get_repo_issues.
  pose proof preserves_setup_github_integration.
  pose proof preserves_dispatch. pose proof preserves_main.
  destruct c; simpl; preserve.
Qed.

Lemma preserves_run_calls fuel cs : preserves R (run_calls fuel cs).
Proof.
  pose proof preserves_run_call.
  induction cs as [|c cs IH]; simpl; preserve.
Qed.

End Preservation.

Lemma only_config_written_same st st' :
  write_log st' = write_log st -> files st' = files st ->
  only_config_written st st'.
Proof.
  intros Hw Hf. split.
  - exists []. rewrite app_nil_r. split; [exact Hw|constructor].
  - intros path. left. rewrite Hf. reflexivity.
Qed.

Lemma only_config_written_trans st1 st2 st3 :
  only_config_written st1 st2 -> only_config_written st2 st3 ->
  only_config_written st1 st3.
Proof.
  intros [(w1 & Hw1 & Hok1) Hf1] [(w2 & Hw2 & Hok2) Hf2]. split.
  - exists (w1 ++ w2). split.
    + rewrite Hw2, Hw1, app_assoc. reflexivity.
    + apply Forall_app. split; assumption.
  - intros path. destruct (Hf2 path) as [Heq|Hdoc].
    + rewrite Heq. apply Hf1.
    + right. exact Hdoc.
Qed.

Lemma only_config_written_write st :
  only_config_written st
    (write_file (config_file (config st)) (config_document (config st)) st).
Proof.
  split.
  - exists [(config_file (config st), config_document (config st))].
    split; [reflexivity|]. repeat constructor.
  - intros path. simpl.
    destruct (decide (config_file (config st) = path)) as [->|Hne].
    + right. exists (config_document (config st)).
      rewrite lookup_insert_eq. split; reflexivity.
    + left. rewrite lookup_insert_ne by exact Hne. reflexivity.
Qed.

Lemma run_calls_only_config_written env fuel calls st :
  only_config_written st (snd (run_calls fuel calls env st)).
Proof.
  apply (preserves_run_calls only_config_written).
  - intros s. apply only_config_written_same; reflexivity.
  - apply only_config_written_trans.
  - intros c s. apply only_config_written_same; reflexivity.
  - intros h s. apply only_config_written_same; reflexivity.
  - intros out s. apply only_config_written_same; reflexivity.
  - intros log s. apply only_config_written_same; reflexivity.
  - intros names s. apply only_config_written_same; reflexivity.
  - apply only_config_written_write.
Qed.

(** C2. Whatever calls are made and whatever the remote, the environment
    and the files are, every document written during the run, and every
    file the run changes, has exactly the fields [username] and
    [api_base_url]; and what [_save_config] writes is the same whatever
    token the session holds. *)
Theorem token_never_persisted env fuel calls st :
  only_config_written st (snd (run_calls fuel calls env st)) /\
  (forall t,
     let st_t := set_config (set_token t (config st)) st in
     write_log (snd (_save_config env st_t)) =
       write_log (snd (_save_config env st)) /\
     files (snd (_save_config env st_t)) = files (snd (_save_config env st))).
Proof.
  split.
  - apply run_calls_only_config_written.
  - intros t. unfold _save_config. run. simpl.
    destruct (open_write env (config_file (config st))); split; reflexivity.
Qed.

(** The invariant at work: a session holding a token authenticates, the
    one file written has the two fields. *)
Example token_not_in_config_file :
  write_log
    (snd (run_calls 5 [CallMain (Some (CmdAuth (Some "ghp_x")))]
            github_octocat fresh)) =
    [("~/.gitai_config.json",
      JObj [("username", JStr "octocat");
            ("api_base_url", JStr "https://api.github.com")])].
Proof. reflexivity. Qed.

(** ** The config file *)

(** What [_load_config] finds when the file holds the object [fields]. *)
Lemma load_config_object env st fields :
  files st !! config_file (config st) = Some (Return (JObj fields)) ->
  _load_config env st =
    (tt,
     set_config
       (set_api_base_url
          (match assoc "api_base_url" fields with
           | Some b => b
           | None => api_base_url (config st)
           end)
          (set_username
             (match assoc "username" fields with
              | Some u => u
              | None => JNull
              end) (config st))) st).
Proof.
  intros Hfile. unfold _load_config. run. rewrite Hfile. reflexivity.
Qed.

(** X1. What one client saves another finds: after a [_save_config] that
    could open the file, a [_load_config] by any client on the same file,
    whatever its own fields, leaves it with the username and the base URL
    of the client that saved, keeps its own token and prints nothing. *)
Theorem save_then_load_restores env st c :
  open_write env (config_file (config st)) = None ->
  config_file c = config_file (config st) ->
  let saved := snd (_save_config env st) in
  let loaded := snd (_load_config env (set_config c saved)) in
  username (config loaded) = username (config st) /\
  api_base_url (config loaded) = api_base_url (config st) /\
  token (config loaded) = token c /\
  stdout loaded = stdout st.
Proof.
  intros Hopen Hfile saved loaded. subst loaded saved.
  unfold _save_config. run. rewrite Hopen. cbn [snd].
  rewrite (load_config_object env _
             [("username", username (config st));
              ("api_base_url", api_base_url (config st))]).
  - repeat split.
  - simpl. rewrite Hfile. apply lookup_insert_eq.
Qed.

Lemma save_then_load_restores_witness :
  let st := set_config (set_username (JStr "octocat")
                          (set_token (Some "ghp_x") (config fresh))) fresh in
  let restarted :=
    snd (_load_config github_octocat
           (set_config (default_config "~/.gitai_config.json")
              (snd (_save_config github_octocat st)))) in
  username (config restarted) = JStr "octocat" /\
  token (config restarted) = None.
Proof.
  pose proof (save_then_load_restores github_octocat
                (set_config (set_username (JStr "octocat")
                               (set_token (Some "ghp_x") (config fresh))) fresh)
                (default_config "~/.gitai_config.json") eq_refl eq_refl)
    as (Hu & _ & Ht & _).
  split; [exact Hu | exact Ht].
Defined.

(** X2. [_load_config] only ever changes [username] and [api_base_url]:
    the token, the path of the config file, the session headers, the
    files and the logs are as before. When the file is missing,
    unreadable, or holds something other than an object, the whole
    configuration is as before. *)
Theorem load_config_is_harmless env st :
  let st' := snd (_load_config env st) in
  token (config st') = token (config st) /\
  config_file (config st') = config_file (config st) /\
  session_headers st' = session_headers st /\
  files st' = files st /\
  net_log st' = net_log st /\
  write_log st' = write_log st /\
  ((forall fields,
      files st !! config_file (config st) <> Some (Return (JObj fields))) ->
   config st' = config st).
Proof.
  unfold _load_config. run. cbn zeta.
  destruct (files st !! config_file (config st)) as [[doc|e]|] eqn:Hfile;
    simpl.
  - destruct doc; simpl; repeat split; try reflexivity.
    intros H. exfalso. apply (H fields). reflexivity.
  - repeat split.
  - repeat split.
Qed.

Lemma load_config_is_harmless_witness :
  config (snd (_load_config offline corrupted)) = config corrupted /\
  stdout (snd (_load_config offline corrupted)) =
    [MsgLoadWarning (JSONDecodeError "Expecting value")].
Proof.
  split; [|reflexivity].
  apply (load_config_is_harmless offline corrupted).
  intros fields. vm_compute. discriminate.
Defined.

(** X3. A config file that holds an object is taken key by key: a
    missing [api_base_url] keeps the current base URL, while a missing
    [username] resets the username to [None]. *)
Theorem load_config_missing_keys env st fields :
  files st !! config_file (config st) = Some (Return (JObj fields)) ->
  let st' := snd (_load_config env st) in
  (assoc "api_base_url" fields = None ->
   api_base_url (config st') = api_base_url (config st)) /\
  (assoc "username" fields = None -> username (config st') = JNull) /\
  (forall b, assoc "api_base_url" fields = Some b ->
   api_base_url (config st') = b) /\
  (forall u, assoc "username" fields = Some u -> username (config st') = u) /\
  stdout st' = stdout st.
Proof.
  intros Hfile st'. subst st'. rewrite (load_config_object env st fields Hfile).
  simpl. repeat split.
  - intros ->. reflexivity.
  - intros ->. reflexivity.
  - intros b ->. reflexivity.
  - intros u ->. reflexivity.
Qed.

Lemma load_config_missing_keys_witness :
  let st := set_config (set_username (JStr "octocat") (config fresh))
              (write_file "~/.gitai_config.json" (JObj []) fresh) in
  username (config (snd (_load_config offline st))) = JNull /\
  api_base_url (config (snd (_load_config offline st))) =
    JStr "https://api.github.com".
Proof.
  pose proof (load_config_missing_keys offline
                (set_config (set_username (JStr "octocat") (config fresh))
                   (write_file "~/.gitai_config.json" (JObj []) fresh))
                [] eq_refl) as (Hb & Hu & _).
  split; [exact (Hu eq_refl) | exact (Hb eq_refl)].
Defined.

(** ** Single repositories *)

(** X4. [get_repo_info] sends one request whether or not the session has
    a token. It returns something other than [None] only when the answer
    has status 200, and then it returns the decoded body; a 404 gives
    the not-found message and any other status the failure message with
    that status. *)
Theorem get_repo_info_outcomes env st owner repo_name :
  let req := build_request GET (repo_url owner repo_name) ∅ None st in
  let res := get_repo_info owner repo_name env st in
  net_log (snd res) = net_log st ++ [req] /\
  (fst res <> JNull ->
   exists resp,
     remote env (net_log st) req = Return resp /\
     status_code resp = 200%Z /\
     resp_json resp = Return (fst res) /\
     stdout (snd res) = stdout st) /\
  (forall resp,
     remote env (net_log st) req = Return resp ->
     status_code resp <> 200%Z ->
     fst res = JNull /\
     stdout (snd res) =
       stdout st ++
       [if (status_code resp =? 404)%Z then MsgRepoNotFound owner repo_name
        else MsgRepoInfoFailed (status_code resp)]).
Proof.
  intros req res. subst res req. unfold get_repo_info. run. simpl.
  destruct (remote env (net_log st)
              (build_request GET (repo_url owner repo_name) ∅ None st))
    as [resp|e] eqn:Hr; simpl.
  - destruct (Z.eqb_spec (status_code resp) 200) as [Hs|Hs]; simpl.
    + destruct (resp_json resp) as [v|e] eqn:Hj; simpl.
      * split; [reflexivity|]. split.
        -- intros _. exists resp. repeat split; assumption.
        -- intros resp' [= <-] Hne. contradiction.
      * split; [reflexivity|]. split.
        -- intros H. contradiction.
        -- intros resp' [= <-] Hne. contradiction.
    + destruct (status_code resp =? 404)%Z eqn:H404; simpl.
      * split; [reflexivity|]. split; [intros H; contradiction|].
        intros resp' [= <-] _. rewrite H404. split; reflexivity.
      * split; [reflexivity|]. split; [intros H; contradiction|].
        intros resp' [= <-] _. rewrite H404. split; reflexivity.
  - split; [reflexivity|]. split; [intros H; contradiction|].
    intros resp' ?. discriminate.
Qed.

Lemma get_repo_info_outcomes_witness :
  fst (get_repo_info "octocat" "missing" not_found fresh) = JNull /\
  stdout (snd (get_repo_info "octocat" "missing" not_found fresh)) =
    [MsgRepoNotFound "octocat" "missing"].
Proof.
  destruct (get_repo_info_outcomes not_found fresh "octocat" "missing")
    as (_ & _ & H).
  apply (H {| status_code := 404; text := "Not Found";
              resp_json := Return (JObj [("message", JStr "Not Found")]) |}).
  - reflexivity.
  - simpl. lia.
Defined.

(** With a token, [create_repository] sends its one request whatever
    comes back. *)
Lemma create_repository_sends env st name description private :
  has_token (token (config st)) = true ->
  net_log (snd (create_repository name description private env st)) =
    net_log st ++ [repository_request name description private st].
Proof.
  intros Htok. unfold create_repository, repository_request. run.
  rewrite Htok. simpl. branches; reflexivity.
Qed.

(** X5. [create_repository] checks the token itself: without one it
    prints the not-authenticated message, returns [None] and sends
    nothing. With one it sends exactly one request, a [POST /user/repos]
    whose body carries the name, the description and the visibility as
    given and [auto_init] set. *)
Theorem create_repository_guard_and_payload env st name description private :
  (has_token (token (config st)) = false ->
   create_repository name description private env st =
     (JNull, set_stdout (stdout st ++ [MsgNotAuthenticated]) st)) /\
  (has_token (token (config st)) = true ->
   net_log (snd (create_repository name description private env st)) =
     net_log st ++ [repository_request name description private st]).
Proof.
  split.
  - intros Htok. unfold create_repository. run. rewrite Htok. reflexivity.
  - apply create_repository_sends.
Qed.

Lemma create_repository_guard_and_payload_witness :
  net_log (snd (create_repository "hello" "" true terse fresh)) = [] /\
  net_log (snd (create_repository "hello" "" true terse (logged_in "ghp_x"))) =
    [repository_request "hello" "" true (logged_in "ghp_x")].
Proof.
  split.
  - destruct (create_repository_guard_and_payload terse fresh "hello" "" true)
      as [H _]. rewrite (H eq_refl). reflexivity.
  - destruct (create_repository_guard_and_payload terse (logged_in "ghp_x")
                "hello" "" true) as [_ H]. exact (H eq_refl).
Defined.

(** X6. A 201 answer is reported as a failure when its body is an object
    without [full_name]: [create_repository] prints the error for the
    missing key and returns [None], although the remote answered that
    the repository was created. *)
Theorem create_repository_created_without_name
    env st name description private resp fields :
  has_token (token (config st)) = true ->
  remote env (net_log st) (repository_request name description private st) =
    Return resp ->
  status_code resp = 201%Z ->
  resp_json resp = Return (JObj fields) ->
  assoc "full_name" fields = None ->
  create_repository name description private env st =
    (JNull,
     set_stdout (stdout st ++ [MsgCreateRepoError (KeyError "full_name")])
       (set_net_log
          (net_log st ++ [repository_request name description private st]) st)).
Proof.
  intros Htok Hr Hs Hj Hkey.
  unfold create_repository, repository_request in *. run.
  rewrite Htok. simpl. rewrite Hr. simpl. rewrite Hs, Hj. simpl.
  rewrite Hkey. reflexivity.
Qed.

Lemma create_repository_created_without_name_witness :
  fst (create_repository "hello" "" false terse (logged_in "ghp_x")) = JNull.
Proof.
  rewrite (create_repository_created_without_name terse (logged_in "ghp_x")
             "hello" "" false
             {| status_code := 201; text := ""; resp_json := Return (JObj []) |}
             []); reflexivity.
Defined.

(** X7. The same for issues: a 201 answer whose body is an object
    without [number] makes [create_issue] print the error for the missing
    key and return [None], and the command then reports nothing. *)
Theorem create_issue_created_without_number
    env st owner repo_name title body resp fields :
  remote env (net_log st) (issue_request owner repo_name title body st) =
    Return resp ->
  status_code resp = 201%Z ->
  resp_json resp = Return (JObj fields) ->
  assoc "number" fields = None ->
  create_issue owner repo_name title body None env st =
    (JNull,
     set_stdout (stdout st ++ [MsgCreateIssueError (KeyError "number")])
       (set_net_log
          (net_log st ++ [issue_request owner repo_name title body st]) st)).
Proof.
  intros Hr Hs Hj Hkey.
  unfold create_issue, issue_request in *. run. simpl.
  rewrite Hr. simpl. rewrite Hs, Hj. simpl. rewrite Hkey. reflexivity.
Qed.

Lemma create_issue_created_without_number_witness :
  fst (create_issue "octocat" "hello" "Bug" "" None terse fresh) = JNull.
Proof.
  rewrite (create_issue_created_without_number terse fresh
             "octocat" "hello" "Bug" ""
             {| status_code := 201; text := ""; resp_json := Return (JObj []) |}
             []); reflexivity.
Defined.

(** ** More on listing the repositories *)

(** X8. A transport error, or a body that is not JSON, ends the listing
    like a bad status does: the pages collected so far are returned, the
    error is printed, and no further page is requested. *)
Theorem get_user_repos_stops_on_error env st include_private pages fuel e :
  has_token (token (config st)) = true ->
  (forall i items, pages !! i = Some items ->
     items <> [] /\
     exists resp,
       page_response env st include_private 1 i = Return resp /\
       status_code resp = 200%Z /\
       resp_json resp = Return (JArr items)) ->
  (page_response env st include_private 1 (length pages) = Raise e \/
   exists resp,
     page_response env st include_private 1 (length pages) = Return resp /\
     status_code resp = 200%Z /\ resp_json resp = Raise e) ->
  (length pages < fuel)%nat ->
  get_user_repos fuel include_private env st =
    (Some (concat pages),
     set_stdout (stdout st ++ [MsgReposError e])
       (set_net_log
          (net_log st ++ page_requests st include_private 1 (S (length pages)))
          st)).
Proof.
  intros Htok Hpages Hend Hfuel.
  unfold get_user_repos. run. rewrite Htok. cbn [negb].
  rewrite (get_user_repos_loop_run env include_private pages st fuel [] 1
             [MsgReposError e]); [reflexivity| | |exact Hfuel].
  - intros i items Hi.
    destruct (Hpages i items Hi) as (Hne & resp & -> & Hs & Hj).
    unfold page_of. rewrite Hs, Hj. simpl.
    destruct items; [contradiction|reflexivity].
  - unfold page_of. destruct Hend as [->|(resp & -> & Hs & Hj)];
      [reflexivity|]. rewrite Hs, Hj. reflexivity.
Qed.

Lemma get_user_repos_stops_on_error_witness :
  fst (get_user_repos 3 true one_page_then_down (logged_in "ghp_x")) =
    Some [repo "octocat/a" false].
Proof.
  rewrite (get_user_repos_stops_on_error one_page_then_down (logged_in "ghp_x")
             true [[repo "octocat/a" false]] 3
             (RequestException "connection reset")).
  - reflexivity.
  - reflexivity.
  - intros i items Hi. destruct i as [|i]; simpl in Hi; [|discriminate].
    injection Hi as <-. split; [discriminate|]. eexists. repeat split.
  - left. reflexivity.
  - simpl. lia.
Defined.

Lemma get_user_repos_loop_never_returns env include_private :
  never_empty env ->
  forall fuel st repos page,
    fst (get_user_repos_loop fuel include_private repos page env st) = None /\
    net_log (snd (get_user_repos_loop fuel include_private repos page env st)) =
      net_log st ++ page_requests st include_private page fuel.
Proof.
  intros Hremote. induction fuel as [|fuel IH]; intros st repos page.
  - simpl. rewrite app_nil_r. split; reflexivity.
  - rewrite get_user_repos_loop_step. cbv zeta.
    destruct (Hremote (net_log st) (page_request st include_private page))
      as (resp & x & rest & Hr & Hs & Hj).
    rewrite Hr. unfold page_of. rewrite Hs, Hj. simpl.
    destruct (IH (set_net_log
                    (net_log st ++ [page_request st include_private page]) st)
                (repos ++ x :: rest) (page + 1)%Z) as [Hnone Hlog].
    split; [exact Hnone|].
    rewrite Hlog, page_requests_frame, page_requests_S.
    cbn [net_log set_net_log]. rewrite <- app_assoc. reflexivity.
Qed.

(** X9. There is no bound on the number of pages: against a remote that
    answers every request with a non-empty page, the loop of
    [get_user_repos] is never left. However many iterations it is given,
    it has not returned and has sent one request for each. *)
Theorem get_user_repos_never_returns env st include_private fuel :
  has_token (token (config st)) = true ->
  never_empty env ->
  fst (get_user_repos fuel include_private env st) = None /\
  net_log (snd (get_user_repos fuel include_private env st)) =
    net_log st ++ page_requests st include_private 1 fuel.
Proof.
  intros Htok Hremote. unfold get_user_repos. run. rewrite Htok. cbn [negb].
  apply get_user_repos_loop_never_returns. exact Hremote.
Qed.

Lemma endless_never_empty : never_empty endless.
Proof. intros history req. eexists _, _, _. repeat split. Qed.

Lemma get_user_repos_never_returns_witness :
  fst (get_user_repos 50 true endless (logged_in "ghp_x")) = None /\
  length (net_log (snd (get_user_repos 50 true endless (logged_in "ghp_x")))) =
    50%nat.
Proof.
  destruct (get_user_repos_never_returns endless (logged_in "ghp_x") true 50
              eq_refl endless_never_empty) as [H1 H2].
  split; [exact H1|]. rewrite H2. reflexivity.
Defined.

(** ** More on the session *)

(** Whatever the verification call gives, [authenticate] has by then
    stored the token it chose and installed the headers, and has sent
    that one request. *)
Lemma authenticate_after_call env st tok t :
  chosen_token env st tok = Some t ->
  t <> "" ->
  net_log (snd (authenticate tok env st)) =
    net_log st ++ [verification_request t st] /\
  session_headers (snd (authenticate tok env st)) =
    auth_headers t (session_headers st) /\
  token (config (snd (authenticate tok env st))) = Some t /\
  api_base_url (config (snd (authenticate tok env st))) =
    api_base_url (config st) /\
  config_file (config (snd (authenticate tok env st))) =
    config_file (config st).
Proof.
  intros Hchosen Ht.
  pose proof (nonempty_eqb t Ht) as Hne.
  unfold chosen_token in Hchosen.
  unfold authenticate, _setup_session, _save_config. run.
  destruct (has_token tok) eqn:Htok; simpl.
  - subst tok. rewrite Htok. simpl. repeat (rewrite Hne; simpl).
    fold_verification t st.
    destruct (remote env (net_log st) (verification_request t st));
      simpl; branches; repeat split.
  - destruct (has_token (token (config st))) eqn:Hheld; simpl.
    + rewrite Hheld. simpl. rewrite Hchosen. repeat (rewrite Hne; simpl).
      fold_verification t st.
      destruct (remote env (net_log st) (verification_request t st));
        simpl; branches; repeat split; assumption.
    + rewrite Hchosen. simpl. repeat (rewrite Hne; simpl).
      fold_verification t st.
      destruct (remote env (net_log st) (verification_request t st));
        simpl; branches; repeat split.
Qed.

Lemma auth_headers_lookup t (h : gmap string string) (k : string) :
  auth_headers t h !! k =
    if decide (k = "User-Agent") then Some "GitAI-CLI/1.0"
    else if decide (k = "Accept") then Some "application/vnd.github.v3+json"
    else if decide (k = "Authorization") then Some ("token " +:+ t)
    else h !! k.
Proof.
  unfold auth_headers. rewrite !lookup_insert.
  repeat case_decide; congruence.
Qed.

(** X10. Once [authenticate] has a token [t] to try, the session headers
    hold [Authorization: token t], the GitHub [Accept] type and the
    client's [User-Agent], in place of whatever values these three had
    (a token tried earlier included); every other header of the session
    is as it was. This holds whether or not the verification succeeds. *)
Theorem authenticate_installs_headers env st tok t (k : string) :
  chosen_token env st tok = Some t ->
  t <> "" ->
  session_headers (snd (authenticate tok env st)) !! k =
    if decide (k = "User-Agent") then Some "GitAI-CLI/1.0"
    else if decide (k = "Accept") then Some "application/vnd.github.v3+json"
    else if decide (k = "Authorization") then Some ("token " +:+ t)
    else session_headers st !! k.
Proof.
  intros Hchosen Ht.
  destruct (authenticate_after_call env st tok t Hchosen Ht) as (_ & -> & _).
  apply auth_headers_lookup.
Qed.

Lemma authenticate_installs_headers_witness :
  session_headers
    (snd (authenticate (Some "ghp_new") unauthorized (logged_in "ghp_old")))
    !! "Authorization" = Some "token ghp_new".
Proof.
  rewrite (authenticate_installs_headers unauthorized (logged_in "ghp_old")
             (Some "ghp_new") "ghp_new" "Authorization");
    [reflexivity | reflexivity | discriminate].
Defined.

(** X11. After [authenticate] has tried the token [t], every request
    that [get_user_repos] sends carries [Authorization: token t] and
    goes to the base URL the verification call went to. *)
Theorem repos_requests_carry_token env st tok t fuel include_private :
  chosen_token env st tok = Some t ->
  t <> "" ->
  let st1 := snd (authenticate tok env st) in
  exists sent,
    net_log (snd (get_user_repos fuel include_private env st1)) =
      net_log st1 ++ sent /\
    Forall (fun req =>
              req_headers req !! "Authorization" = Some ("token " +:+ t) /\
              req_base req = api_base_url (config st) /\
              req_path req = "/user/repos") sent.
Proof.
  intros Hchosen Ht st1.
  destruct (authenticate_after_call env st tok t Hchosen Ht)
    as (_ & Hh & Htok & Hbase & _).
  fold st1 in Hh, Htok, Hbase.
  unfold get_user_repos. run. rewrite Htok.
  unfold has_token. rewrite (nonempty_eqb t Ht). cbn [negb].
  destruct (get_user_repos_loop_requests env include_private fuel st1 [] 1)
    as [n Hn].
  exists (page_requests st1 include_private 1 n). split; [exact Hn|].
  apply Forall_lookup. intros i req Hreq.
  apply page_requests_lookup in Hreq. subst req.
  unfold page_request, build_request. cbn [req_headers req_base req_path].
  rewrite Hh, Hbase, auth_headers_lookup. repeat split.
Qed.

Lemma repos_requests_carry_token_witness :
  exists sent,
    net_log (snd (get_user_repos 5 true two_pages
                    (snd (authenticate (Some "ghp_x") two_pages fresh)))) =
      net_log (snd (authenticate (Some "ghp_x") two_pages fresh)) ++ sent /\
    Forall (fun req =>
              req_headers req !! "Authorization" = Some "token ghp_x" /\
              req_base req = JStr "https://api.github.com" /\
              req_path req = "/user/repos") sent.
Proof.
  apply (repos_requests_carry_token two_pages fresh (Some "ghp_x") "ghp_x" 5 true).
  - reflexivity.
  - discriminate.
Defined.

(** ** Starting up *)

Lemma load_config_frame env st :
  token (config (snd (_load_config env st))) = token (config st) /\
  session_headers (snd (_load_config env st)) = session_headers st /\
  net_log (snd (_load_config env st)) = net_log st.
Proof.
  unfold _load_config. run. cbn zeta. branches; repeat split.
Qed.

(** [setup_github_integration] is: a new client, its config file read,
    one [authenticate()], and the help text when that fails. *)
Lemma setup_github_integration_run env st :
  setup_github_integration env st =
    (tt,
     if fst (authenticate None env (restarted env st))
     then snd (authenticate None env (restarted env st))
     else set_stdout
            (stdout (snd (authenticate None env (restarted env st)))
               ++ [MsgTokenHelp])
            (snd (authenticate None env (restarted env st)))).
Proof.
  unfold setup_github_integration, GitHubIntegration_init, restarted,
    constructed, _setup_session.
  unfold bind at 1 2 3 4 5. unfold get_config. cbn [token default_config set_config
    set_session_headers config ret snd fst].
  destruct (_load_config env _) as [[] st1]. cbn [snd].
  destruct (authenticate None env st1) as [[|] st2]; reflexivity.
Qed.

Lemma restarted_frame env st :
  token (config (restarted env st)) = None /\
  session_headers (restarted env st) = default_headers env /\
  net_log (restarted env st) = net_log st.
Proof.
  unfold restarted.
  destruct (load_config_frame env (constructed env st)) as (-> & -> & ->).
  repeat split.
Qed.

Lemma setup_with_environment_token env st t :
  getenv env "GITHUB_TOKEN" = Some t ->
  t <> "" ->
  let st' := snd (setup_github_integration env st) in
  token (config st') = Some t /\
  session_headers st' = auth_headers t (default_headers env) /\
  api_base_url (config st') = api_base_url (config (restarted env st)) /\
  net_log st' = net_log st ++ [verification_request t (restarted env st)].
Proof.
  intros Henv Ht st'. subst st'. rewrite setup_github_integration_run.
  destruct (restarted_frame env st) as (Htok & Hh & Hlog).
  assert (Hchosen : chosen_token env (restarted env st) None = Some t).
  { unfold chosen_token. rewrite Htok. exact Henv. }
  destruct (authenticate_after_call env (restarted env st) None t Hchosen Ht)
    as (Hn & Hs & Hk & Hb & _).
  rewrite Hh in Hs. rewrite Hlog in Hn.
  cbn [snd].
  destruct (fst (authenticate None env (restarted env st)));
    repeat split; assumption.
Qed.

(** X12. A client started with [GITHUB_TOKEN] set to [t] ends its set-up
    holding [t] as its token and [Authorization: token t] in its
    headers, having sent the one verification request, whatever the
    remote answered to it: a refused token is kept. *)
Theorem setup_keeps_environment_token env st t :
  getenv env "GITHUB_TOKEN" = Some t ->
  t <> "" ->
  let st' := snd (setup_github_integration env st) in
  token (config st') = Some t /\
  session_headers st' !! "Authorization" = Some ("token " +:+ t) /\
  exists req,
    net_log st' = net_log st ++ [req] /\
    req_method req = GET /\ req_path req = "/user" /\
    req_headers req !! "Authorization" = Some ("token " +:+ t).
Proof.
  intros Henv Ht st'.
  destruct (setup_with_environment_token env st t Henv Ht)
    as (Htok & Hh & _ & Hlog).
  fold st' in Htok, Hh, Hlog.
  split; [exact Htok|]. split.
  - rewrite Hh, auth_headers_lookup. reflexivity.
  - exists (verification_request t (restarted env st)).
    split; [exact Hlog|]. unfold verification_request.
    cbn [req_method req_path req_headers].
    rewrite auth_headers_lookup. repeat split.
Qed.

Lemma setup_keeps_environment_token_witness :
  token (config (snd (setup_github_integration
                        (with_token "ghp_bad" unauthorized) fresh))) =
    Some "ghp_bad".
Proof.
  apply (setup_keeps_environment_token (with_token "ghp_bad" unauthorized)
           fresh "ghp_bad").
  - reflexivity.
  - discriminate.
Defined.

(** X13. The verification request of a starting client goes to the
    [api_base_url] found in the config file, with the token of the
    environment in its headers. *)
Theorem setup_sends_token_to_persisted_url env st t fields b :
  getenv env "GITHUB_TOKEN" = Some t ->
  t <> "" ->
  files st !! home_config env = Some (Return (JObj fields)) ->
  assoc "api_base_url" fields = Some b ->
  net_log (snd (setup_github_integration env st)) =
    net_log st ++
    [{| req_method := GET; req_base := b; req_path := "/user";
        req_params := ∅; req_json := None;
        req_headers := auth_headers t (default_headers env) |}].
Proof.
  intros Henv Ht Hfile Hb.
  destruct (setup_with_environment_token env st t Henv Ht) as (_ & _ & _ & ->).
  destruct (restarted_frame env st) as (_ & Hh & _).
  unfold verification_request. rewrite Hh.
  unfold restarted.
  rewrite (load_config_object env (constructed env st) fields) by exact Hfile.
  cbn [snd config set_config api_base_url set_api_base_url].
  rewrite Hb. reflexivity.
Qed.

Lemma setup_sends_token_to_persisted_url_witness :
  map req_base
    (net_log (snd (setup_github_integration
                     (with_token "ghp_x" github_octocat) redirected))) =
    [JStr "https://example.org"].
Proof.
  rewrite (setup_sends_token_to_persisted_url
             (with_token "ghp_x" github_octocat) redirected "ghp_x"
             [("username", JStr "octocat");
              ("api_base_url", JStr "https://example.org")]
             (JStr "https://example.org")).
  - reflexivity.
  - reflexivity.
  - discriminate.
  - reflexivity.
  - reflexivity.
Defined.

(** ** Paths, once more *)

Lemma py_split_no_separator sep s :
  count_char sep s = O -> py_split sep s = [s].
Proof.
  induction s as [|c rest IH]; simpl; [reflexivity|].
  destruct (Ascii.eqb c sep); [discriminate|].
  intros H. rewrite (IH H). reflexivity.
Qed.

Lemma py_split_one sep s piece :
  py_split sep s = [piece] -> s = piece /\ count_char sep s = O.
Proof.
  revert piece. induction s as [|c rest IH]; intros piece; simpl.
  - intros [= <-]. split; reflexivity.
  - destruct (Ascii.eqb c sep).
    + intros [= _ H]. pose proof (py_split_length sep rest) as Hlen.
      rewrite H in Hlen. discriminate.
    + destruct (py_split sep rest) as [|p ps] eqn:Hrest; [intros [= <-]|].
      * pose proof (py_split_length sep rest) as Hlen.
        rewrite Hrest in Hlen. discriminate.
      * intros [= <- ->]. destruct (IH p eq_refl) as [-> Hc].
        split; [reflexivity | exact Hc].
Qed.

Lemma py_split_two sep s a b :
  py_split sep s = [a; b] ->
  s = a +:+ String sep b /\ count_char sep a = O /\ count_char sep b = O.
Proof.
  revert a. induction s as [|c rest IH]; intros a; simpl; [discriminate|].
  destruct (Ascii.eqb_spec c sep) as [->|Hne].
  - intros [= <- H]. apply py_split_one in H. destruct H as [-> Hc].
    repeat split. exact Hc.
  - destruct (py_split sep rest) as [|p ps] eqn:Hrest; [discriminate|].
    intros [= <- ->]. destruct (IH p eq_refl) as (-> & Ha & Hb).
    simpl. apply Ascii.eqb_neq in Hne. rewrite Hne. repeat split; assumption.
Qed.

Lemma py_split_joined sep a b :
  count_char sep a = O -> count_char sep b = O ->
  py_split sep (a +:+ String sep b) = [a; b].
Proof.
  intros Ha Hb. induction a as [|c rest IH]; simpl in *.
  - rewrite Ascii.eqb_refl, (py_split_no_separator sep b Hb). reflexivity.
  - destruct (Ascii.eqb c sep); [discriminate|].
    rewrite (IH Ha). reflexivity.
Qed.

(** X14. The paths a command accepts are exactly the strings
    [owner/name] in which neither part holds a ['/'], and the two parts
    are recovered as they were typed; an empty owner or an empty name
    is accepted. *)
Theorem split_repo_path_accepts repo_path owner repo_name :
  split_repo_path repo_path = Return (owner, repo_name) <->
  repo_path = owner +:+ "/" +:+ repo_name /\
  count_char "/" owner = O /\ count_char "/" repo_name = O.
Proof.
  unfold split_repo_path. split.
  - destruct (py_split "/" repo_path) as [|a [|b [|c rest]]] eqn:Hsplit;
      try discriminate.
    intros [= <- <-]. apply py_split_two in Hsplit. exact Hsplit.
  - intros (-> & Ho & Hr).
    change (owner +:+ "/" +:+ repo_name)
      with (owner +:+ String "/" repo_name).
    rewrite (py_split_joined "/" owner repo_name Ho Hr). reflexivity.
Qed.

Lemma split_repo_path_accepts_witness :
  split_repo_path "octocat/hello" = Return ("octocat", "hello").
Proof.
  apply (split_repo_path_accepts "octocat/hello" "octocat" "hello").
  repeat split.
Defined.

Example split_repo_path_empty_parts :
  split_repo_path "/" = Return ("", "") /\
  split_repo_path "octocat/" = Return ("octocat", "").
Proof. split; reflexivity. Qed.

Lemma split_repo_path_url repo_path owner repo_name :
  split_repo_path repo_path = Return (owner, repo_name) ->
  repo_url owner repo_name = "/repos/" +:+ repo_path.
Proof.
  unfold split_repo_path.
  destruct (py_split "/" repo_path) as [|a [|b [|c rest]]] eqn:Hsplit;
    try discriminate.
  intros [= <- <-]. apply py_split_two in Hsplit. destruct Hsplit as (-> & _).
  reflexivity.
Qed.

(** ** More on the commands *)

Lemma print_all_frame ms env st :
  net_log (snd (print_all ms env st)) = net_log st /\
  stdout (snd (print_all ms env st)) = stdout st ++ ms.
Proof.
  revert st. induction ms as [|m ms IH]; intros st; simpl.
  - rewrite app_nil_r. split; reflexivity.
  - run. destruct (IH (set_stdout (stdout st ++ [m]) st)) as [Hn Ho].
    destruct (print_all ms env (set_stdout (stdout st ++ [m]) st)) as [[] st'].
    simpl in *. rewrite Hn, Ho, <- app_assoc. split; reflexivity.
Qed.

(** Uses what is known of a [print_all] the goal went through. *)
Ltac printed :=
  match goal with
  | H : print_all ?ms ?env ?s0 = (_, _) |- _ =>
      let Hn := fresh in
      destruct (print_all_frame ms env s0) as [Hn _];
      rewrite H in Hn; simpl in Hn; exact Hn
  end.

(** X15. Every command that takes a repository path rejects a path with
    no ['/'] or with more than one in the same way: it prints the
    invalid-format message and returns, and nothing else happens. The
    path is tested before the token. *)
Theorem commands_reject_malformed_paths fuel cmd path env st :
  command_path cmd = Some path ->
  count_char "/" path <> 1%nat ->
  dispatch fuel cmd env st =
    (Some Returned, set_stdout (stdout st ++ [CliInvalidPath]) st).
Proof.
  intros Hcmd Hpath.
  destruct cmd; simpl in Hcmd; try discriminate; injection Hcmd as ->;
    simpl;
    unfold GitAICLI.get_repo_info, GitAICLI.list_branches,
      GitAICLI.list_commits, GitAICLI.list_issues, GitAICLI.create_issue;
    rewrite (split_repo_path_malformed path Hpath); reflexivity.
Qed.

Lemma commands_reject_malformed_paths_witness :
  dispatch 0 (CmdCreateIssue "octocat" "Bug" "") github_octocat fresh =
    (Some Returned, set_stdout [CliInvalidPath] fresh).
Proof.
  apply (commands_reject_malformed_paths 0 (CmdCreateIssue "octocat" "Bug" "")
           "octocat").
  - reflexivity.
  - simpl. lia.
Defined.

(** X16. The four commands that read a repository send exactly one
    request for a well-formed path, with or without a token in the
    session: a [GET] on [/repos/] followed by the path as typed and the
    suffix of the command. *)
Theorem read_commands_send_one_request fuel cmd path req env st :
  command_path cmd = Some path ->
  count_char "/" path = 1%nat ->
  read_request cmd st = Some req ->
  net_log (snd (dispatch fuel cmd env st)) = net_log st ++ [req].
Proof.
  intros Hcmd Hpath Hreq.
  destruct (split_repo_path_well_formed path Hpath) as (owner & repo_name & Hs).
  pose proof (split_repo_path_url path owner repo_name Hs) as Hurl.
  destruct cmd; simpl in Hcmd, Hreq; try discriminate;
    injection Hcmd as ->; injection Hreq as <-; simpl;
    unfold GitAICLI.get_repo_info, GitAICLI.list_branches,
      GitAICLI.list_commits, GitAICLI.list_issues;
    rewrite Hs;
    unfold get_repo_info, get_repo_branches, get_repo_commits, get_repo_issues;
    run; rewrite Hurl; simpl.
  - branches; reflexivity.
  - branches; try reflexivity; printed.
  - branches; try reflexivity; printed.
  - branches; try reflexivity; printed.
Qed.

Lemma read_commands_send_one_request_witness :
  map req_path
    (net_log (snd (dispatch 0 (CmdCommits "octocat/hello" "main" 10)
                     not_found fresh))) =
    ["/repos/octocat/hello/commits"].
Proof.
  rewrite (read_commands_send_one_request 0 (CmdCommits "octocat/hello" "main" 10)
             "octocat/hello"
             (build_request GET "/repos/octocat/hello/commits"
                (<["per_page" := JNum 10]> (<["sha" := JStr "main"]> ∅))
                None fresh)); reflexivity.
Defined.

Lemma page_requests_same st st' include_private first n :
  config st = config st' ->
  session_headers st = session_headers st' ->
  page_requests st include_private first n =
    page_requests st' include_private first n.
Proof.
  intros Hc Hh. revert first. induction n as [|n IH]; intros first;
    [reflexivity|].
  rewrite !page_requests_S, IH. unfold page_request, build_request.
  rewrite Hc, Hh. reflexivity.
Qed.

(** X17. The [repos] command asks for [visibility=public] on every
    request when [--public-only] is given and for [visibility=all]
    otherwise, and it sends nothing but requests for [/user/repos]. *)
Theorem repos_command_visibility fuel public_only env st :
  exists sent,
    net_log (snd (dispatch fuel (CmdRepos public_only) env st)) =
      net_log st ++ sent /\
    Forall (fun req =>
              req_path req = "/user/repos" /\
              req_params req !! "visibility" =
                Some (JStr (if public_only then "public" else "all"))) sent.
Proof.
  simpl. unfold GitAICLI.list_repos, get_user_repos. run.
  destruct (has_token (token (config st))) eqn:Htok; simpl.
  - rewrite Htok. simpl.
    destruct (get_user_repos_loop_requests env (negb public_only) fuel
                (set_stdout (stdout st ++ [CliReposHeader]) st) [] 1)
      as [n Hn].
    rewrite (page_requests_same _ st) in Hn by reflexivity.
    cbn [net_log set_stdout] in Hn.
    exists (page_requests st (negb public_only) 1 n). split.
    + destruct (get_user_repos_loop fuel (negb public_only) [] 1 env _)
        as [[[|r repos]|] st1]; cbn [snd] in Hn.
      * simpl. exact Hn.
      * cbv beta iota zeta.
        destruct (print_all_frame (map CliRepoLine (r :: repos)) env st1)
          as [Hp _].
        destruct (print_all (map CliRepoLine (r :: repos)) env st1)
          as [[] st2].
        cbn [snd] in *. rewrite Hp. exact Hn.
      * simpl. exact Hn.
    + apply Forall_lookup. intros i req Hreq.
      apply page_requests_lookup in Hreq. subst req.
      destruct public_only; split; reflexivity.
  - exists []. simpl. rewrite app_nil_r. split; [reflexivity|constructor].
Qed.

(** X18. [repos] and [create] test the token first: without one each
    prints the please-authenticate message and returns, and nothing is
    sent. *)
Theorem guarded_commands_need_token fuel cmd env st :
  token_guarded cmd = true ->
  has_token (token (config st)) = false ->
  dispatch fuel cmd env st =
    (Some Returned, set_stdout (stdout st ++ [CliPleaseAuthenticate]) st).
Proof.
  intros Hcmd Htok. destruct cmd; try discriminate; simpl;
    unfold GitAICLI.list_repos, GitAICLI.create_repo; run;
    rewrite Htok; reflexivity.
Qed.

Lemma guarded_commands_need_token_witness :
  dispatch 5 (CmdCreate "hello" "" false) github_octocat fresh =
    (Some Returned, set_stdout [CliPleaseAuthenticate] fresh).
Proof.
  apply (guarded_commands_need_token 5 (CmdCreate "hello" "" false));
    reflexivity.
Defined.



(** X20. A listing command does not test what kind of value the remote
    sent: when the answer has status 200 and its body is a number other
    than zero or [true], the command prints its header and then ends
    with the [TypeError] of the loop, which nothing catches. *)
Theorem listing_commands_crash_on_scalar fuel cmd path req resp v env st :
  is_listing cmd = true ->
  command_path cmd = Some path ->
  count_char "/" path = 1%nat ->
  read_request cmd st = Some req ->
  remote env (net_log st) req = Return resp ->
  status_code resp = 200%Z ->
  resp_json resp = Return v ->
  scalar v = true ->
  dispatch fuel cmd env st =
    (Some (Crashed (TypeError (type_of v) "iter")),
     set_stdout (stdout st ++ listing_header cmd)
       (set_net_log (net_log st ++ [req]) st)).
Proof.
  intros Hlist Hcmd Hpath Hreq Hr Hs Hj Hv.
  destruct (split_repo_path_well_formed path Hpath) as (owner & repo_name & Hsp).
  pose proof (split_repo_path_url path owner repo_name Hsp) as Hurl.
  assert (Htruthy : py_truthy v = true).
  { destruct v; simpl in Hv; try discriminate; exact Hv. }
  assert (Hiter : py_iter v = Raise (TypeError (type_of v) "iter")).
  { destruct v; simpl in Hv; try discriminate; reflexivity. }
  destruct cmd; try discriminate; simpl in Hcmd, Hreq;
    injection Hcmd as ->; injection Hreq as <-; simpl;
    unfold GitAICLI.list_branches, GitAICLI.list_commits, GitAICLI.list_issues;
    rewrite Hsp;
    unfold get_repo_branches, get_repo_commits, get_repo_issues;
    run; rewrite Hurl; cbv zeta; rewrite Hr; simpl; rewrite Hs, Hj; simpl;
    rewrite Htruthy; simpl; rewrite Hiter; reflexivity.
Qed.

Lemma listing_commands_crash_on_scalar_witness :
  fst (dispatch 0 (CmdBranches "octocat/hello") five fresh) =
    Some (Crashed (TypeError TInt "iter")).
Proof.
  rewrite (listing_commands_crash_on_scalar 0 (CmdBranches "octocat/hello")
             "octocat/hello"
             (build_request GET "/repos/octocat/hello/branches" ∅ None fresh)
             {| status_code := 200; text := ""; resp_json := Return (JNum 5) |}
             (JNum 5) five fresh); reflexivity.
Defined.

(** X21. A failed request is reported twice by the [issues] command:
    for a well-formed path and an answer with a status other than 200,
    the failure message with the status is followed by the message that
    no issues in that state were found. *)
Theorem issues_command_on_failure env st path owner repo_name issue_state resp :
  split_repo_path path = Return (owner, repo_name) ->
  remote env (net_log st)
    (listing_request (Issues issue_state) owner repo_name st) = Return resp ->
  status_code resp <> 200%Z ->
  GitAICLI.list_issues path issue_state env st =
    (Returned,
     set_stdout
       (stdout st ++ [MsgIssuesFailed (status_code resp); CliNoIssues issue_state])
       (set_net_log
          (net_log st ++ [listing_request (Issues issue_state) owner repo_name st])
          st)).
Proof.
  intros Hsp Hr Hs. apply Z.eqb_neq in Hs.
  unfold GitAICLI.list_issues. rewrite Hsp.
  unfold get_repo_issues, listing_request, listing_path, listing_params in *.
  run. cbv zeta. rewrite Hr. simpl. rewrite Hs. simpl.
  unfold set_stdout, set_net_log. simpl. rewrite <- app_assoc. reflexivity.
Qed.

Lemma issues_command_on_failure_witness :
  stdout (snd (GitAICLI.list_issues "octocat/hello" "open" server_error fresh)) =
    [MsgIssuesFailed 500; CliNoIssues "open"].
Proof.
  rewrite (issues_command_on_failure server_error fresh "octocat/hello"
             "octocat" "hello" "open"
             {| status_code := 500; text := "Internal Server Error";
                resp_json := Raise (JSONDecodeError "Expecting value") |}).
  - reflexivity.
  - reflexivity.
  - reflexivity.
  - simpl. lia.
Defined.

(** X22. The same for [repos]: with a token, when the request for the
    first page is answered by a status other than 200, the command
    prints its header, the failure message with the status, and then
    that no repositories were found. *)
Theorem repos_command_on_failure fuel include_private env st resp :
  has_token (token (config st)) = true ->
  remote env (net_log st) (page_request st include_private 1) = Return resp ->
  status_code resp <> 200%Z ->
  GitAICLI.list_repos (S fuel) include_private env st =
    (Some Returned,
     set_stdout
       (stdout st ++
        [CliReposHeader; MsgReposFailed (status_code resp); CliNoRepos])
       (set_net_log (net_log st ++ [page_request st include_private 1]) st)).
Proof.
  intros Htok Hr Hs. apply Z.eqb_neq in Hs.
  unfold GitAICLI.list_repos, get_user_repos. run.
  rewrite Htok. cbv beta iota zeta. cbn [negb config set_stdout].
  rewrite Htok. cbn [negb].
  rewrite get_user_repos_loop_step. cbv zeta.
  change (page_request (set_stdout (stdout st ++ [CliReposHeader]) st)
            include_private 1)
    with (page_request st include_private 1).
  cbn [net_log set_stdout]. rewrite Hr. unfold page_of. rewrite Hs.
  unfold set_stdout, set_net_log. simpl. rewrite <- !app_assoc. reflexivity.
Qed.

Lemma repos_command_on_failure_witness :
  stdout (snd (GitAICLI.list_repos 1 true server_error (logged_in "ghp_x"))) =
    [CliReposHeader; MsgReposFailed 500; CliNoRepos].
Proof.
  rewrite (repos_command_on_failure 0 true server_error (logged_in "ghp_x")
             {| status_code := 500; text := "Internal Server Error";
                resp_json := Raise (JSONDecodeError "Expecting value") |}).
  - reflexivity.
  - reflexivity.
  - reflexivity.
  - simpl. lia.
Defined.

(** ** The whole program *)

Lemma main_run fuel cmd env st :
  main fuel (Some cmd) env st =
    dispatch fuel cmd env (snd (setup_github_integration env st)).
Proof.
  unfold main, GitAICLI.init, bind.
  destruct (setup_github_integration env st) as [[] st1]. reflexivity.
Qed.

(** X23. The commands test that a token is present, not that it was
    accepted: started with [GITHUB_TOKEN] set, [main] with the [create]
    command sends the verification request and then the creation
    request with that token, whatever the remote answered to the
    first. *)
Theorem main_creates_with_unverified_token
    fuel env st t name description private :
  getenv env "GITHUB_TOKEN" = Some t ->
  t <> "" ->
  exists verification creation,
    net_log (snd (main fuel (Some (CmdCreate name description private)) env st))
      = net_log st ++ [verification; creation] /\
    req_path verification = "/user" /\
    req_method creation = POST /\
    req_path creation = "/user/repos" /\
    req_headers creation !! "Authorization" = Some ("token " +:+ t).
Proof.
  intros Henv Ht. rewrite main_run.
  destruct (setup_with_environment_token env st t Henv Ht)
    as (Htok & Hh & _ & Hlog).
  set (st1 := snd (setup_github_integration env st)) in *.
  assert (Hhas : has_token (token (config st1)) = true).
  { rewrite Htok. simpl. rewrite (nonempty_eqb t Ht). reflexivity. }
  exists (verification_request t (restarted env st)),
         (repository_request name description private st1).
  split; [|split; [reflexivity|]]; [|split; [reflexivity|]];
    [|split; [reflexivity|]].
  - simpl. unfold GitAICLI.create_repo. run. rewrite Hhas. cbn [negb].
    pose proof (create_repository_sends env st1 name description private Hhas)
      as Hsent.
    destruct (create_repository name description private env st1) as [v st2].
    cbn [snd] in Hsent.
    destruct (py_truthy v); simpl; rewrite Hsent, Hlog, <- app_assoc;
      reflexivity.
  - unfold repository_request, build_request. cbn [req_headers].
    rewrite Hh, auth_headers_lookup. reflexivity.
Qed.

Lemma main_creates_with_unverified_token_witness :
  map req_path
    (net_log (snd (main 0 (Some (CmdCreate "hello" "" false))
                     (with_token "ghp_bad" unauthorized) fresh))) =
    ["/user"; "/user/repos"].
Proof.
  destruct (main_creates_with_unverified_token 0
              (with_token "ghp_bad" unauthorized) fresh "ghp_bad"
              "hello" "" false eq_refl) as (v & c & Hlog & Hv & _ & Hc & _).
  - discriminate.
  - rewrite Hlog. simpl. rewrite Hv, Hc. reflexivity.
Defined.

(** ** Answers [authenticate] cannot use *)

(** Runs [authenticate] up to the verification call, in each of the
    three ways the token [t] can have been chosen. *)
Ltac to_verification tok t st Hchosen Hne :=
  unfold chosen_token in Hchosen;
  unfold authenticate, _setup_session, _save_config; run;
  let Htok := fresh "Htok" in
  let Hheld := fresh "Hheld" in
  destruct (has_token tok) eqn:Htok; simpl;
  [ subst tok; rewrite Htok; simpl; repeat (rewrite Hne; simpl)
  | destruct (has_token (token (config st))) eqn:Hheld; simpl;
    [ rewrite Hheld; simpl; rewrite Hchosen; repeat (rewrite Hne; simpl)
    | rewrite Hchosen; simpl; repeat (rewrite Hne; simpl) ] ];
  fold_verification t st.

(** X24. Status 200 is not enough: when the body of the answer is not
    JSON, or is JSON but not an object, [authenticate] prints the error
    and returns [False]; the username is as before and nothing is
    written. *)
Theorem authenticate_rejects_unusable_body env st tok t resp e :
  chosen_token env st tok = Some t ->
  t <> "" ->
  remote env (net_log st) (verification_request t st) = Return resp ->
  status_code resp = 200%Z ->
  (resp_json resp = Raise e \/
   exists v, resp_json resp = Return v /\
             (forall fields, v <> JObj fields) /\
             e = AttributeError (type_of v) "get") ->
  fst (authenticate tok env st) = false /\
  stdout (snd (authenticate tok env st)) = stdout st ++ [MsgAuthError e] /\
  username (config (snd (authenticate tok env st))) = username (config st) /\
  write_log (snd (authenticate tok env st)) = write_log st /\
  files (snd (authenticate tok env st)) = files st.
Proof.
  intros Hchosen Ht Hr Hs Hbody.
  pose proof (nonempty_eqb t Ht) as Hne.
  assert (Hget : match resp_json resp with
                 | Return user_data => py_get user_data "login" JNull = Raise e
                 | Raise e' => e' = e
                 end).
  { destruct Hbody as [->|(v & -> & Hv & ->)]; [reflexivity|].
    destruct v; try reflexivity. exfalso. apply (Hv fields). reflexivity. }
  to_verification tok t st Hchosen Hne; rewrite Hr; simpl; rewrite Hs; simpl;
    destruct (resp_json resp) as [user_data|e']; simpl;
    rewrite ?Hget; subst; simpl; repeat split; assumption.
Qed.

Lemma authenticate_rejects_unusable_body_witness :
  fst (authenticate (Some "ghp_x") five fresh) = false /\
  stdout (snd (authenticate (Some "ghp_x") five fresh)) =
    [MsgAuthError (AttributeError TInt "get")].
Proof.
  destruct (authenticate_rejects_unusable_body five fresh (Some "ghp_x") "ghp_x"
              {| status_code := 200; text := ""; resp_json := Return (JNum 5) |}
              (AttributeError TInt "get")) as (H1 & H2 & _).
  - reflexivity.
  - discriminate.
  - reflexivity.
  - reflexivity.
  - right. exists (JNum 5). repeat split. intros fields. discriminate.
  - split; [exact H1 | exact H2].
Defined.

(** X25. A login is not required: when the answer has status 200 and
    its body is an object without [login], [authenticate] returns
    [True] with [None] as the username, and that is what it saves. *)
Theorem authenticate_accepts_missing_login env st tok t resp fields :
  chosen_token env st tok = Some t ->
  t <> "" ->
  remote env (net_log st) (verification_request t st) = Return resp ->
  status_code resp = 200%Z ->
  resp_json resp = Return (JObj fields) ->
  assoc "login" fields = None ->
  fst (authenticate tok env st) = true /\
  username (config (snd (authenticate tok env st))) = JNull /\
  saved_or_warned env st (snd (authenticate tok env st)) JNull.
Proof.
  intros Hchosen Ht Hr Hs Hj Hlogin.
  pose proof (nonempty_eqb t Ht) as Hne.
  unfold saved_or_warned.
  to_verification tok t st Hchosen Hne; rewrite Hr; simpl; rewrite Hs, Hj;
    simpl; rewrite Hlogin; simpl;
    destruct (open_write env (config_file (config st))); simpl;
    rewrite <- ?app_assoc; repeat split.
Qed.

Lemma authenticate_accepts_missing_login_witness :
  fst (authenticate (Some "ghp_x") (serving (fun _ _ => answer 200 (JObj [])))
         fresh) = true /\
  write_log (snd (authenticate (Some "ghp_x")
                    (serving (fun _ _ => answer 200 (JObj []))) fresh)) =
    [("~/.gitai_config.json",
      JObj [("username", JNull);
            ("api_base_url", JStr "https://api.github.com")])].
Proof.
  destruct (authenticate_accepts_missing_login
              (serving (fun _ _ => answer 200 (JObj []))) fresh
              (Some "ghp_x") "ghp_x"
              {| status_code := 200; text := ""; resp_json := Return (JObj []) |}
              []) as (H1 & _ & H3 & _).
  - reflexivity.
  - discriminate.
  - reflexivity.
  - reflexivity.
  - reflexivity.
  - reflexivity.
  - split; [exact H1 | exact H3].
Defined.
